(** * Analytics capture and purge pipeline (analytics.go)

    A shallow embedding of [RedisAnalyticsHandler.RecordHit],
    [CSVPurger.PurgeCache], [MongoPurger.PurgeCache], [MongoPurger.Connect]
    and the two [StartPurgeLoop] methods, together with the properties of the
    capture / drain-and-delete pipeline that the specification states.

    The Go code talks to collaborators that live outside analytics.go: the
    msgpack codec, the UUID generator, the redis storage manager, the file
    system with its CSV writer, the mgo session, the logger and the clock.
    Every call to one of them is an event of the [World]; what the
    collaborator answers is an input of the model. *)

From Stdlib Require Import ZArith List.
From Stdlib.Strings Require Import Ascii String Byte.
From stdpp Require Import base decidable option list gmap strings pretty fin_maps.

Local Open Scope string_scope.
Local Open Scope list_scope.
Local Open Scope Z_scope.

(** ** Text formatting used by the Go code *)

Module Fmt.

(** [strconv.Itoa], [strconv.FormatInt _ 10] and the [%d] verb. *)
Definition Itoa (n : Z) : string := pretty n.

(** [time.Month.String]: the English name, or outside 1..12 [%!Month(n)]
    with n the month converted to [uint64], so that a negative month prints
    as a number just below 2^64. *)
Definition Month_String (m : Z) : string :=
  match m with
  | 1 => "January" | 2 => "February" | 3 => "March" | 4 => "April"
  | 5 => "May" | 6 => "June" | 7 => "July" | 8 => "August"
  | 9 => "September" | 10 => "October" | 11 => "November" | 12 => "December"
  | _ => "%!Month(" +:+ Itoa (m mod 2 ^ 64) +:+ ")"
  end.

(** One lower-case hexadecimal digit. *)
Definition hex_digit (n : N) : ascii :=
  match n with
  | 0 => "0" | 1 => "1" | 2 => "2" | 3 => "3" | 4 => "4" | 5 => "5"
  | 6 => "6" | 7 => "7" | 8 => "8" | 9 => "9" | 10 => "a" | 11 => "b"
  | 12 => "c" | 13 => "d" | 14 => "e" | _ => "f"
  end%N%char.

(** The value of a hexadecimal digit, the inverse of [hex_digit]. *)
Definition hex_value (c : ascii) : N :=
  let n := N_of_ascii c in
  if (n <? 58)%N then (n - 48)%N else (n - 87)%N.

(** The [%x] verb on a byte slice: two digits per byte. *)
Fixpoint hex (bs : list byte) : string :=
  match bs with
  | [] => ""
  | b :: bs' =>
      String (hex_digit (Byte.to_N b / 16)) (String (hex_digit (Byte.to_N b mod 16)) (hex bs'))
  end.

(** Reading the digits back, two at a time. *)
Fixpoint unhex (s : string) : list byte :=
  match s with
  | String hi (String lo s') =>
      match Byte.of_N (16 * hex_value hi + hex_value lo) with
      | Some b => b :: unhex s'
      | None => []
      end
  | _ => []
  end.

(** Joining the cells of a row with commas, as a CSV line shows them (the
    quoting of cells that themselves hold a comma belongs to the writer). *)
Definition csv_line (row : list string) : string := String.concat "," row.

End Fmt.

(** ** Errors *)

(** Go's [error] values: analytics.go declares [AnalyticsError]; every other
    error is made by a collaborator and carried around opaquely. A nil error
    is [None] at type [option error]. *)
Inductive error : Type :=
| AnalyticsError
| ForeignError (msg : string).

(** The [Error] method. *)
Definition Error (e : error) : string :=
  match e with
  | AnalyticsError => "Recording request failed!"
  | ForeignError msg => msg
  end.

(** ** The UUID package *)

Module uuid.

(** The gouuid package is not part of analytics.go; what [RecordHit] uses
    of it is written out here. A UUID is a [[16]byte], the 128-bit value the
    staging key takes its suffix from; its [String] method prints the
    canonical 8-4-4-4-12 grouping of lower-case hexadecimal digits. *)
Definition UUID := list byte.

Definition wf (u : UUID) : Prop := length u = 16%nat.

Definition String (u : UUID) : string :=
  Fmt.hex (take 4 u) +:+ "-" +:+ Fmt.hex (take 2 (drop 4 u)) +:+ "-" +:+
  Fmt.hex (take 2 (drop 6 u)) +:+ "-" +:+ Fmt.hex (take 2 (drop 8 u)) +:+ "-" +:+
  Fmt.hex (drop 10 u).

(** The UUID a fresh [new(UUID)] points to: sixteen zero bytes. *)
Definition zero : UUID := replicate 16 x00%byte.

(** A byte after an operation on its value. *)
Definition on_byte (f : N → N) (b : byte) : byte :=
  default b (Byte.of_N (f (Byte.to_N b))).

(** [setVariant(ReservedRFC4122)]: [u[8] = (u[8] | 0x40) & 0x7F]. *)
Definition setVariant (u : UUID) : UUID :=
  alter (on_byte (λ n, N.land (N.lor n 64) 127)) 8%nat u.

(** [setVersion(4)]: [u[6] = (u[6] & 0xF) | (4 << 4)]. *)
Definition setVersion (u : UUID) : UUID :=
  alter (on_byte (λ n, N.lor (N.land n 15) 64)) 6%nat u.

(** [uuid.NewV4] of the gouuid package, which is not part of analytics.go.
    It allocates a zero UUID and reads sixteen random bytes into it. When
    the read fails it returns the pointer to the UUID, still zero, together
    with the error; the pointer is never nil. Otherwise it sets the variant
    and version bits and returns the pointer with a nil error. [drawn] is
    what the entropy source delivered, [None] when reading it failed. *)
Definition NewV4 (drawn : option UUID) : option UUID * option error :=
  match drawn with
  | Some u => (Some (setVersion (setVariant u)), None)
  | None => (Some zero, Some (ForeignError "uuid: no random bytes"))
  end.

End uuid.

(** ** Data model *)

(** [AnalyticsRecord] encodes the details of a request. Go's [int], [int64]
    and [time.Month] fields are integers; [TimeStamp] is the instant in
    nanoseconds. No arithmetic is done on any of them. *)
Record AnalyticsRecord : Type := {
  Method : string;
  Path : string;
  ContentLength : Z;
  UserAgent : string;
  Day : Z;
  Month : Z;
  Year : Z;
  Hour : Z;
  ResponseCode : Z;
  APIKey : string;
  TimeStamp : Z;
  APIVersion : string;
  APIName : string;
  ApiId : string;
  OrgId : string
}.

(** The part of the process configuration analytics.go reads
    ([config.AnalyticsConfig]). *)
Record AnalyticsConfig : Type := {
  CSVDir : string;
  MongoURL : string;
  MongoCollection : string
}.

(** The wall-clock fields [PurgeCache] reads off [time.Now()]. *)
Record Time : Type := {
  t_Year : Z;
  t_Month : Z;
  t_Day : Z;
  t_Hour : Z;
  t_Minute : Z
}.

(** An open [mgo] session is known by the URL it was dialled with. *)
Record Session : Type := { session_url : string }.

(** ** The world outside analytics.go *)

Inductive Level : Type := InfoLevel | ErrorLevel | PanicLevel.

(** What is handed to the logger: a message or an error value. *)
Inductive Logged : Type :=
| Msg (s : string)
| Err (e : error).

(** Calls on the storage manager. *)
Inductive StoreCall : Type :=
| CallSetKey (keyName value : string) (timeout : Z)
| CallGetKeysAndValues
| CallDeleteKeys (keys : list string).

(** Everything the code does to a collaborator, in the order it does it. *)
Inductive Event : Type :=
| EvLog (lvl : Level) (what : Logged)
| EvStore (c : StoreCall)
| EvSleep (seconds : Z)
| EvMkdirAll (dir : string) (perm : Z)
| EvCreate (fname : string)
| EvWrite (row : list string)
| EvFlush
| EvClose
| EvDial (url : string)
| EvInsert (collection : string) (docs : list (option AnalyticsRecord)).

(** A CSV file is the sequence of rows that reached it. *)
Definition CsvFile := list (list string).

(** An activation of [StartPurgeLoop] that has not returned yet. The other
    methods return (or panic) within the drain cycle that calls them and
    leave no frame behind. *)
Record Frame : Type := {
  method : string;
  nextCount : Z
}.

Record World : Type := mkWorld {
  redis : gmap string string;       (* the staging store's keys and values *)
  dirs : gset string;               (* directories that exist *)
  files : gmap string CsvFile;      (* files that exist, by path *)
  stack : list Frame;               (* the purge goroutine's call stack, innermost first *)
  trace : list Event                (* calls made so far, oldest first *)
}.

(** A value a goroutine panics with. *)
Inductive PanicValue : Type :=
| NilPointerDereference
| LogPanic (e : error).

(** How a call ends: it returns, it panics, or the inputs the environment
    was given for it ran out while it was still going. *)
Inductive Outcome (A : Type) : Type :=
| Returned (a : A)
| Panicked (v : PanicValue)
| StillRunning.
Arguments Returned {A} a.
Arguments Panicked {A} v.
Arguments StillRunning {A}.

(** Code that runs against the world. *)
Definition Exec (A : Type) : Type := World → Outcome A * World.

#[global] Instance Exec_ret : MRet Exec := λ A a w, (Returned a, w).

#[global] Instance Exec_bind : MBind Exec := λ A B k m w,
  match m w with
  | (Returned a, w') => k a w'
  | (Panicked v, w') => (Panicked v, w')
  | (StillRunning, w') => (StillRunning, w')
  end.

Definition panic {A} (v : PanicValue) : Exec A := λ w, (Panicked v, w).

Definition still_running {A} : Exec A := λ w, (StillRunning, w).

Definition emit (e : Event) : Exec unit := λ w,
  (Returned tt, mkWorld (redis w) (dirs w) (files w) (stack w) (trace w ++ [e])).

Definition set_redis (r : gmap string string) : Exec unit := λ w,
  (Returned tt, mkWorld r (dirs w) (files w) (stack w) (trace w)).

Definition set_dirs (d : gset string) : Exec unit := λ w,
  (Returned tt, mkWorld (redis w) d (files w) (stack w) (trace w)).

Definition set_files (f : gmap string CsvFile) : Exec unit := λ w,
  (Returned tt, mkWorld (redis w) (dirs w) f (stack w) (trace w)).

(** Entering a call pushes its frame, returning from it pops the frame. *)
Definition enter (f : Frame) : Exec unit := λ w,
  (Returned tt, mkWorld (redis w) (dirs w) (files w) (f :: stack w) (trace w)).

Definition leave : Exec unit := λ w,
  (Returned tt, mkWorld (redis w) (dirs w) (files w) (tail (stack w)) (trace w)).

Definition get_world : Exec World := λ w, (Returned w, w).

(** *** The logger *)

Module log.
Definition Info (s : string) : Exec unit := emit (EvLog InfoLevel (Msg s)).
Definition Error (x : Logged) : Exec unit := emit (EvLog ErrorLevel x).
(** [log.Panic] writes the entry and then panics with it. *)
Definition Panic (e : error) : Exec unit :=
  emit (EvLog PanicLevel (Err e));; panic (LogPanic e).
End log.

(** *** The storage manager *)

(** The store after a sequence of writes. *)
Definition after_puts (puts : list (string * string)) (m : gmap string string)
    : gmap string string :=
  foldl (λ m kv, <[kv.1 := kv.2]> m) m puts.

Module RedisStorageManager.

(** Modelled from the spec: redis_handler.go is not under src/. The staging
    store is a key/value mapping with [put(key, value, ttl)],
    [getAll() -> mapping(key -> value)] and [deleteMany(keys)]; a record is
    written with no expiration. *)
Definition delete_all (keys : list string) (m : gmap string string) : gmap string string :=
  foldr delete m keys.

Definition SetKey (keyName value : string) (timeout : Z) : Exec unit :=
  emit (EvStore (CallSetKey keyName value timeout));;
  w ← get_world;
  set_redis (<[keyName := value]> (redis w)).

Definition GetKeysAndValues : Exec (gmap string string) :=
  emit (EvStore CallGetKeysAndValues);;
  w ← get_world;
  mret (redis w).

Definition DeleteKeys (keys : list string) : Exec unit :=
  emit (EvStore (CallDeleteKeys keys));;
  w ← get_world;
  set_redis (delete_all keys (redis w)).

(** Writes of other goroutines (recorders calling [SetKey]) that reach the
    store while this goroutine is between two of its own calls. They are not
    events of this goroutine. *)
Definition meanwhile (puts : list (string * string)) : Exec unit :=
  w ← get_world;
  set_redis (after_puts puts (redis w)).

End RedisStorageManager.

(** *** The msgpack codec and Go's map iteration *)

(** [msgpack.Marshal] returns the payload and an error; [msgpack.Unmarshal]
    fills the record it is given and returns an error. *)
Class Msgpack : Type := {
  Marshal : AnalyticsRecord → string * option error;
  Unmarshal : string → AnalyticsRecord * option error
}.

(** [for k, v := range m] visits every entry of the map once, in an order
    the language leaves open. *)
Class MapRange : Type := {
  range : gmap string string → list (string * string);
  range_visits_all : ∀ m, range m ≡ₚ map_to_list m
}.

(** ** RedisAnalyticsHandler *)

Module RedisAnalyticsHandler.
Section impl.
Context `{Msgpack}.

(** [fmt.Sprintf("%d%d%d%d-%s", Year, Month, Day, Hour, u5.String())] *)
Definition keyName (thisRecord : AnalyticsRecord) (u5 : uuid.UUID) : string :=
  Fmt.Itoa (Year thisRecord) +:+ Fmt.Itoa (Month thisRecord) +:+
  Fmt.Itoa (Day thisRecord) +:+ Fmt.Itoa (Hour thisRecord) +:+ "-" +:+ uuid.String u5.

(** [u5.String()] through a pointer that may be nil. *)
Definition String_of (u5 : option uuid.UUID) : Exec string :=
  match u5 with
  | Some u => mret (uuid.String u)
  | None => panic NilPointerDereference
  end.

(** [RecordHit] will store an AnalyticsRecord in Redis. [newV4] is what the
    call of [uuid.NewV4()] returned; its error is thrown away. *)
Definition RecordHit (thisRecord : AnalyticsRecord)
    (newV4 : option uuid.UUID * option error) : Exec (option error) :=
  let '(encoded, err) := Marshal thisRecord in
  let '(u5, _) := newV4 in
  suffix ← String_of u5;
  let keyName :=
    Fmt.Itoa (Year thisRecord) +:+ Fmt.Itoa (Month thisRecord) +:+
    Fmt.Itoa (Day thisRecord) +:+ Fmt.Itoa (Hour thisRecord) +:+ "-" +:+ suffix in
  match err with
  | Some e =>
      log.Error (Msg "Error encoding analytics data:");;
      log.Error (Err e);;
      mret (Some AnalyticsError)
  | None =>
      RedisStorageManager.SetKey keyName encoded 0;;
      mret None
  end.

(** Capturing a sequence of hits one after the other; the outcomes are
    collected, a panic ends the sequence. *)
Fixpoint RecordHits (hits : list (AnalyticsRecord * (option uuid.UUID * option error)))
    : Exec (list (option error)) :=
  match hits with
  | [] => mret []
  | (r, nv) :: rest =>
      e ← RecordHit r nv;
      es ← RecordHits rest;
      mret (e :: es)
  end.

End impl.
End RedisAnalyticsHandler.

(** ** The file system and the CSV writer *)

Module os.

(** [os.MkdirAll]: the directory exists afterwards unless the call fails. *)
Definition MkdirAll (dir : string) (perm : Z) (result : option error) : Exec (option error) :=
  emit (EvMkdirAll dir perm);;
  w ← get_world;
  match result with
  | None => set_dirs ({[dir]} ∪ dirs w);; mret None
  | Some e => mret (Some e)
  end.

(** [os.Create]: an empty file at [fname], or a nil file and an error. *)
Definition Create (fname : string) (result : option error) : Exec (option string * option error) :=
  emit (EvCreate fname);;
  w ← get_world;
  match result with
  | None => set_files (<[fname := []]> (files w));; mret (Some fname, None)
  | Some e => mret (None, Some e)
  end.

Definition Close (outfile : option string) : Exec unit := emit EvClose.

End os.

Module csv.

(** A [csv.Writer] writes through a [bufio.Writer]: a row goes into the
    buffer, and the buffer is handed to the file when it is full (during
    some [Write]) and on [Flush]. An error of the file is kept by the
    buffer: from then on every [Write] and the [Flush] return it and
    nothing more reaches the file.

    The writer is known by the file it writes to (nil when [os.Create]
    failed), the rows it has taken so far, the number of [Write] calls it
    has served and the error it keeps. Rows are kept whole: the bytes of a
    row and the point at which the buffer is full are not modelled, so when
    a call finds the buffer full is for the environment to say. *)
Record Writer : Type := {
  out : option string;
  buffered : CsvFile;
  served : nat;
  failed : option error
}.

Definition NewWriter (outfile : option string) : Writer :=
  {| out := outfile; buffered := []; served := 0; failed := None |}.

(** [Write]: a writer that keeps an error returns it. Otherwise [result]
    answers the n-th call: nil when the row went into the buffer, an error
    when the buffer was handed to the file during the call and the file
    refused it. *)
Definition Write (result : nat → option error) (w : Writer) (row : list string)
    : Exec (Writer * option error) :=
  emit (EvWrite row);;
  match failed w with
  | Some e =>
      mret ({| out := out w; buffered := buffered w; served := S (served w);
               failed := Some e |}, Some e)
  | None =>
      match result (served w) with
      | None =>
          mret ({| out := out w; buffered := buffered w ++ [row]; served := S (served w);
                   failed := None |}, None)
      | Some e =>
          mret ({| out := out w; buffered := buffered w; served := S (served w);
                   failed := Some e |}, Some e)
      end
  end.

(** The rows that are in the file after [Flush]. When no [Write] failed and
    the flush succeeds ([result] is nil) they are all the rows taken; after
    an error they are only the rows that had left the buffer before it, the
    first [spilled] of them. *)
Definition carried (w : Writer) (result : option error) (spilled : nat) : CsvFile :=
  match failed w, result with
  | None, None => buffered w
  | _, _ => take spilled (buffered w)
  end.

(** [Flush] returns nothing; its error stays in the writer for a call of
    [Error], which analytics.go does not make. *)
Definition Flush (result : option error) (spilled : nat) (w : Writer) : Exec Writer :=
  emit EvFlush;;
  wd ← get_world;
  let kept := match failed w with Some e => Some e | None => result end in
  match out w with
  | Some fname =>
      set_files (<[fname := default [] (files wd !! fname) ++ carried w result spilled]>
                   (files wd));;
      mret {| out := out w; buffered := []; served := served w; failed := kept |}
  | None => mret {| out := out w; buffered := []; served := served w; failed := kept |}
  end.

End csv.

(** *** The clock *)

Module time.

(** Two's-complement wrap-around of [int64] arithmetic. *)
Definition wrap64 (z : Z) : Z := (z + 2 ^ 63) mod 2 ^ 64 - 2 ^ 63.

(** [time.Second] in nanoseconds. *)
Definition Second : Z := 1000000000.

(** [time.Sleep(time.Duration(nextCount) * time.Second)] *)
Definition Sleep (nextCount : Z) : Exec unit :=
  emit (EvSleep (wrap64 (nextCount * Second))).

End time.

(** ** CSVPurger *)

Module CSVPurger.

(** What the environment answers during one drain cycle. *)
Record Cycle : Type := {
  Now : Time;
  MkdirAll_result : option error;
  Create_result : option error;
  Write_result : nat → option error;
  Flush_result : option error;
  spilled_rows : nat;
  recorded_meanwhile : list (string * string)
}.

Section impl.
Context `{Msgpack} `{MapRange} (config : AnalyticsConfig).

Definition headers : list string :=
  ["METHOD"; "PATH"; "SIZE"; "UA"; "DAY"; "MONTH"; "YEAR"; "HOUR"; "RESPONSE"; "APINAME"; "APIVERSION"].

(** [fmt.Sprintf("%s%d-%s-%d-%d-%d.csv", CSVDir, Year, Month, Day, Hour, Minute)] *)
Definition fname (curtime : Time) : string :=
  CSVDir config +:+ Fmt.Itoa (t_Year curtime) +:+ "-" +:+
  Fmt.Month_String (t_Month curtime) +:+ "-" +:+ Fmt.Itoa (t_Day curtime) +:+ "-" +:+
  Fmt.Itoa (t_Hour curtime) +:+ "-" +:+ Fmt.Itoa (t_Minute curtime) +:+ ".csv".

Definition toWrite (decoded : AnalyticsRecord) : list string :=
  [ Method decoded;
    Path decoded;
    Fmt.Itoa (ContentLength decoded);
    UserAgent decoded;
    Fmt.Itoa (Day decoded);
    Fmt.Month_String (Month decoded);
    Fmt.Itoa (Year decoded);
    Fmt.Itoa (Hour decoded);
    Fmt.Itoa (ResponseCode decoded);
    APIName decoded;
    APIVersion decoded ].

(** The body of [for k, v := range KeyValueMap], entry by entry. *)
Fixpoint each_entry (io : Cycle) (entries : list (string * string))
    (writer : csv.Writer) (keys : list string) : Exec (csv.Writer * list string) :=
  match entries with
  | [] => mret (writer, keys)
  | (k, v) :: rest =>
      let keys := keys ++ [k] in
      let '(decoded, err) := Unmarshal v in
      writer ←
        match err with
        | Some e =>
            log.Error (Msg "Couldn't unmarshal analytics data:");;
            log.Error (Err e);;
            mret writer
        | None =>
            '(writer, err) ← csv.Write (Write_result io) writer (toWrite decoded);
            match err with
            | Some e =>
                log.Error (Msg "File write failed!");;
                log.Error (Err e);;
                mret writer
            | None => mret writer
            end
        end;
      each_entry io rest writer keys
  end.

(** [PurgeCache] pulls all the analytics data from the cache and drops it
    to a CSV file. *)
Definition PurgeCache (io : Cycle) : Exec unit :=
  let curtime := Now io in
  let fname := fname curtime in
  ferr ← os.MkdirAll (CSVDir config) 511 (MkdirAll_result io);
  match ferr with
  | Some e => log.Error (Err e)
  | None => mret tt
  end;;
  '(outfile, _) ← os.Create fname (Create_result io);
  let writer := csv.NewWriter outfile in
  '(writer, err) ← csv.Write (Write_result io) writer headers;
  match err with
  | Some e =>
      log.Error (Msg "Failed to write file headers!");;
      log.Error (Err e)
  | None =>
      KeyValueMap ← RedisStorageManager.GetKeysAndValues;
      RedisStorageManager.meanwhile (recorded_meanwhile io);;
      '(writer, keys) ← each_entry io (range KeyValueMap) writer [];
      csv.Flush (Flush_result io) (spilled_rows io) writer;;
      RedisStorageManager.DeleteKeys keys
  end;;
  os.Close outfile.

(** [StartPurgeLoop]: sleep, purge, and call itself again. [cycles] lists
    what the environment answers in the cycles that are observed; past the
    last of them the innermost call is still asleep. *)
Fixpoint StartPurgeLoop (cycles : list Cycle) (nextCount : Z) : Exec unit :=
  enter {| method := "CSVPurger.StartPurgeLoop"; nextCount := nextCount |};;
  time.Sleep nextCount;;
  match cycles with
  | [] => still_running
  | io :: later =>
      PurgeCache io;;
      StartPurgeLoop later nextCount;;
      leave
  end.

End impl.
End CSVPurger.

(** ** MongoPurger *)

Module mgo.

(** [Collection.Insert(docs...)]: one bulk insert; [result] is the error the
    driver answers with, nil on success. *)
Definition Insert (collection : string) (docs : list (option AnalyticsRecord))
    (result : list (option AnalyticsRecord) → option error) : Exec (option error) :=
  emit (EvInsert collection docs);;
  mret (result docs).

End mgo.

Module MongoPurger.

(** The [MongoPurger] struct; its [Store] is the world's staging store. *)
Record receiver : Type := { dbSession : option Session }.

(** What the environment answers during one drain cycle. [mgo.Dial] is asked
    once per [Connect]; [Dial_results] lists its answers in order. *)
Record Cycle : Type := {
  Dial_results : list (option Session * option error);
  Insert_result : list (option AnalyticsRecord) → option error;
  recorded_meanwhile : list (string * string)
}.

Section impl.
Context `{Msgpack} `{MapRange} (config : AnalyticsConfig).

(** [Connect] connects to Mongo. *)
Definition Connect (dialled : option Session * option error) (m : receiver) : Exec receiver :=
  emit (EvDial (MongoURL config));;
  let '(session, err) := dialled in
  let m := {| dbSession := session |} in
  match err with
  | Some e =>
      log.Error (Msg "Mongo connection failed:");;
      log.Panic e;;
      mret m
  | None => mret m
  end.

(** The body of [for k, v := range KeyValueMap]: slot [i] of both slices is
    this entry's; a value that does not decode leaves its slot of [keys] nil. *)
Fixpoint each_entry (entries : list (string * string))
    (keys : list (option AnalyticsRecord)) (keyNames : list string) (i : nat)
    : Exec (list (option AnalyticsRecord) * list string) :=
  match entries with
  | [] => mret (keys, keyNames)
  | (k, v) :: rest =>
      let keyNames := <[i := k]> keyNames in
      let '(decoded, err) := Unmarshal v in
      keys ←
        match err with
        | Some e =>
            log.Error (Msg "Couldn't unmarshal analytics data:");;
            log.Error (Err e);;
            mret keys
        | None => mret (<[i := Some decoded]> keys)
        end;
      each_entry rest keys keyNames (i + 1)%nat
  end.

(** [PurgeCache] pulls the data from the in-memory store and drops it into
    the configured collection. [dials] is what is left of the cycle's
    [Dial_results]. *)
Fixpoint PurgeCache_from (dials : list (option Session * option error)) (io : Cycle)
    (m : receiver) : Exec receiver :=
  match dbSession m with
  | None =>
      log.Info "Not connected to analytics store, connecting...";;
      match dials with
      | [] => still_running
      | dialled :: dials' =>
          m ← Connect dialled m;
          PurgeCache_from dials' io m
      end
  | Some session =>
      let analyticsCollection := MongoCollection config in
      KeyValueMap ← RedisStorageManager.GetKeysAndValues;
      RedisStorageManager.meanwhile (recorded_meanwhile io);;
      if decide (0 < size KeyValueMap)%nat then
        let keys := replicate (size KeyValueMap) None in
        let keyNames := replicate (size KeyValueMap) "" in
        '(keys, keyNames) ← each_entry (range KeyValueMap) keys keyNames 0%nat;
        err ← mgo.Insert analyticsCollection keys (Insert_result io);
        match err with
        | Some e =>
            log.Error (Msg "Problem inserting to mongo collection");;
            log.Error (Err e)
        | None => RedisStorageManager.DeleteKeys keyNames
        end;;
        mret m
      else mret m
  end.

Definition PurgeCache (io : Cycle) (m : receiver) : Exec receiver :=
  PurgeCache_from (Dial_results io) io m.

(** [StartPurgeLoop] has a value receiver: [m] is this call's copy of the
    struct, [PurgeCache] works on that copy, and the copy is what the next
    call receives. *)
Fixpoint StartPurgeLoop (cycles : list Cycle) (m : receiver) (nextCount : Z) : Exec unit :=
  enter {| method := "MongoPurger.StartPurgeLoop"; nextCount := nextCount |};;
  time.Sleep nextCount;;
  match cycles with
  | [] => still_running
  | io :: later =>
      m ← PurgeCache io m;
      StartPurgeLoop later m nextCount;;
      leave
  end.

End impl.
End MongoPurger.

(** ** What the specification calls things *)

(** The keys a store call deletes. *)
Definition deleted_by (e : Event) : list string :=
  match e with
  | EvStore (CallDeleteKeys keys) => keys
  | _ => []
  end.

(** Every key some [DeleteKeys] call of the trace names. *)
Definition deleted_keys (t : list Event) : list string := t ≫= deleted_by.

Definition written_by (e : Event) : list (string * string * Z) :=
  match e with
  | EvStore (CallSetKey k v ttl) => [(k, v, ttl)]
  | _ => []
  end.

(** The staging-store writes of a trace. *)
Definition store_writes (t : list Event) : list (string * string * Z) := t ≫= written_by.

Definition inserted_by (e : Event) : list (list (option AnalyticsRecord)) :=
  match e with
  | EvInsert _ docs => [docs]
  | _ => []
  end.

(** The batches handed to the document store. *)
Definition inserted_batches (t : list Event) : list (list (option AnalyticsRecord)) :=
  t ≫= inserted_by.

Definition row_of (e : Event) : list (list string) :=
  match e with
  | EvWrite row => [row]
  | _ => []
  end.

(** The rows handed to the CSV writer. *)
Definition written_rows (t : list Event) : list (list string) := t ≫= row_of.

Definition error_logged_by (e : Event) : list Logged :=
  match e with
  | EvLog ErrorLevel x => [x]
  | _ => []
  end.

(** The entries that were logged at error level. *)
Definition logged_errors (t : list Event) : list Logged := t ≫= error_logged_by.

Definition dialled_by (e : Event) : list string :=
  match e with
  | EvDial url => [url]
  | _ => []
  end.

(** The [mgo.Dial] calls of a trace. *)
Definition dials (t : list Event) : list string := t ≫= dialled_by.

Definition snapshot_by (e : Event) : list unit :=
  match e with
  | EvStore CallGetKeysAndValues => [tt]
  | _ => []
  end.

(** The [GetKeysAndValues] calls of a trace, one [tt] each. *)
Definition snapshots (t : list Event) : list unit := t ≫= snapshot_by.

(** A value decodes when [Unmarshal] reports no error for it. *)
Definition decodes `{Msgpack} (v : string) : bool :=
  match (Unmarshal v).2 with
  | None => true
  | Some _ => false
  end.

(** The rows of the entries that decode, in the order of the entries. *)
Definition decoded_rows `{Msgpack} (entries : list (string * string)) : list (list string) :=
  omap (λ kv, if decodes kv.2 then Some (CSVPurger.toWrite (Unmarshal kv.2).1) else None)
       entries.
Arguments decoded_rows : simpl never.

(** One slot per entry: the decoded record, or nil where the value does not
    decode. *)
Definition decoded_slots `{Msgpack} (entries : list (string * string))
    : list (option AnalyticsRecord) :=
  map (λ kv, if decodes kv.2 then Some (Unmarshal kv.2).1 else None) entries.
Arguments decoded_slots : simpl never.

(** The records of the entries that decode. *)
Definition decoded_records `{Msgpack} (entries : list (string * string))
    : list AnalyticsRecord :=
  omap (λ kv, if decodes kv.2 then Some (Unmarshal kv.2).1 else None) entries.

(** A record encodes when [Marshal] reports no error for it. *)
Definition encodes `{Msgpack} (r : AnalyticsRecord) : bool :=
  match (Marshal r).2 with
  | None => true
  | Some _ => false
  end.

(** The keys the [SetKey] calls of a trace wrote under. *)
Definition written_keys (t : list Event) : list string := (store_writes t).*1.*1.

(** The world after some more events and nothing else. *)
Definition extend (w : World) (t : list Event) : World :=
  mkWorld (redis w) (dirs w) (files w) (stack w) (trace w ++ t).

(** What the bulk insert of a document-store cycle over [snapshot] answers;
    an empty snapshot is not inserted at all. *)
Definition bulk_insert_error `{Msgpack} `{MapRange} (io : MongoPurger.Cycle)
    (snapshot : gmap string string) : option error :=
  if decide (0 < size snapshot)%nat
  then MongoPurger.Insert_result io (decoded_slots (range snapshot))
  else None.

(** A document-store cycle has a session to work with: the purger holds one
    already, or the first [mgo.Dial] of the cycle hands one back. *)
Definition has_session (m : MongoPurger.receiver) (io : MongoPurger.Cycle) : bool :=
  match MongoPurger.dbSession m with
  | Some _ => true
  | None =>
      match MongoPurger.Dial_results io with
      | (Some _, None) :: _ => true
      | _ => false
      end
  end.

(** The events that took the world from [w] to [w']. *)
Definition since (w w' : World) : list Event := drop (length (trace w)) (trace w').

(** ** Further observations *)

Definition delete_call_of (e : Event) : list (list string) :=
  match e with
  | EvStore (CallDeleteKeys keys) => [keys]
  | _ => []
  end.

(** The [DeleteKeys] calls of a trace, each with the keys it names. *)
Definition delete_calls (t : list Event) : list (list string) := t ≫= delete_call_of.

(** The rows a CSV writer that keeps no error takes into its buffer when it
    is handed [rows] one after the other: [result] answers its [Write]
    calls and the first row is call number [n]. From the first error on no
    row is taken. *)
Fixpoint accepted (result : nat → option error) (n : nat) (rows : list (list string))
    : list (list string) :=
  match rows with
  | [] => []
  | row :: rest =>
      match result n with
      | None => row :: accepted result (S n) rest
      | Some _ => []
      end
  end.

(** The error such a writer keeps afterwards: the first one it was
    answered. *)
Fixpoint first_failure (result : nat → option error) (n : nat) (rows : list (list string))
    : option error :=
  match rows with
  | [] => None
  | row :: rest =>
      match result n with
      | None => first_failure result (S n) rest
      | Some e => Some e
      end
  end.

(** What a flat-file cycle leaves in its file when the header row went
    into the buffer and [rows] were handed to the writer after it: all that
    the writer took when no [Write] and not the [Flush] met an error, and
    otherwise only what had left the buffer before the error. *)
Definition left_in_file (io : CSVPurger.Cycle) (rows : list (list string)) : CsvFile :=
  let taken := CSVPurger.headers :: accepted (CSVPurger.Write_result io) 1 rows in
  match first_failure (CSVPurger.Write_result io) 1 rows, CSVPurger.Flush_result io with
  | None, None => taken
  | _, _ => take (CSVPurger.spilled_rows io) taken
  end.

(** The world in which a call of [StartPurgeLoop] has pushed its frame and
    gone to sleep. *)
Definition asleep (f : Frame) (w : World) : World :=
  mkWorld (redis w) (dirs w) (files w) (f :: stack w)
    (trace w ++ [EvSleep (time.wrap64 (nextCount f * time.Second))]).

(** A document-store loop can complete its cycles: there is no cycle to
    run, or the first one has a session to work with (the purger keeps it
    for the later ones). *)
Definition can_drain (m : MongoPurger.receiver) (cycles : list MongoPurger.Cycle) : bool :=
  match cycles with
  | [] => true
  | io :: _ => has_session m io
  end.

(** The codec gives a record back: it encodes, and its payload decodes to
    the same record. *)
Definition round_trips `{Msgpack} (r : AnalyticsRecord) : Prop :=
  (Marshal r).2 = None ∧ Unmarshal (Marshal r).1 = (r, None).

(** A capture whose UUID was generated, as [RecordHits] takes it. *)
Definition captured (h : AnalyticsRecord * uuid.UUID)
    : AnalyticsRecord * (option uuid.UUID * option error) :=
  (h.1, (Some h.2, None)).

(** The key and the payload [RecordHit] stages for a capture. *)
Definition staged_entry `{Msgpack} (h : AnalyticsRecord * uuid.UUID) : string * string :=
  (RedisAnalyticsHandler.keyName h.1 h.2, (Marshal h.1).1).

(** * Sample inputs

    A small codec, an iteration order and a few records and worlds on which
    the definitions above can be run. *)

Module Sample.

Definition hit (path : string) (size : Z) : AnalyticsRecord :=
  {| Method := "GET"; Path := path; ContentLength := size; UserAgent := "curl/7.30";
     Day := 5; Month := 3; Year := 2014; Hour := 7; ResponseCode := 200;
     APIKey := "key"; TimeStamp := 1394002800000000000; APIVersion := "v1";
     APIName := "users"; ApiId := "1"; OrgId := "org" |}.

(** A toy payload format: the letter r followed by the path. Sizes below -1
    cannot be encoded, and a payload that does not start with r cannot be
    decoded. *)
Definition codec : Msgpack :=
  {| Marshal r :=
       if ContentLength r <? -1
       then ("", Some (ForeignError "msgpack: unsupported value"))
       else (String "r" (Path r), None);
     Unmarshal v :=
       match v with
       | String "r" path => (hit path 0, None)
       | _ => (hit "" 0, Some (ForeignError "msgpack: invalid code"))
       end |}.

(** Iteration in the order of the map's own listing. *)
Definition in_order : MapRange :=
  {| range := map_to_list; range_visits_all := λ m, reflexivity (map_to_list m) |}.

Definition config : AnalyticsConfig :=
  {| CSVDir := "/tmp/csv"; MongoURL := "mongodb://localhost/tyk"; MongoCollection := "hits" |}.

Definition u1 : uuid.UUID :=
  [x00; x01; xab; xff; x10; x11; x12; x13; x14; x15; x16; x17; x18; x19; x1a; x1b]%byte.

Definition u2 : uuid.UUID :=
  [x9f; x01; xab; xff; x10; x11; x12; x13; x14; x15; x16; x17; x18; x19; x1a; x1b]%byte.

Definition empty_world : World := mkWorld ∅ ∅ ∅ [] [].

(** Two staged records and one value that does not decode. *)
Definition staged : World :=
  mkWorld (<["a" := "r/users"]> (<["b" := "junk"]> (<["c" := "r/orders"]> ∅))) ∅ ∅ [] [].

(** Three staged records, all of which decode. *)
Definition staged3 : World :=
  mkWorld (<["a" := "r/users"]> (<["b" := "r/carts"]> (<["c" := "r/orders"]> ∅))) ∅ ∅ [] [].

(** One staged value that does not decode. *)
Definition staged_junk : World := mkWorld {["k" := "junk"]} ∅ ∅ [] [].

Definition noon : Time :=
  {| t_Year := 2014; t_Month := 3; t_Day := 1; t_Hour := 12; t_Minute := 0 |}.

(** A flat-file cycle in which every call succeeds, while a recorder stages
    one more hit. *)
Definition csv_ok : CSVPurger.Cycle :=
  {| CSVPurger.Now := noon;
     CSVPurger.MkdirAll_result := None;
     CSVPurger.Create_result := None;
     CSVPurger.Write_result := λ _, None;
     CSVPurger.Flush_result := None;
     CSVPurger.spilled_rows := 0;
     CSVPurger.recorded_meanwhile := [("z", "r/late")] |}.

(** A flat-file cycle whose header row cannot be written. *)
Definition csv_no_header : CSVPurger.Cycle :=
  {| CSVPurger.Now := noon;
     CSVPurger.MkdirAll_result := None;
     CSVPurger.Create_result := None;
     CSVPurger.Write_result := λ _, Some (ForeignError "write: no space left on device");
     CSVPurger.Flush_result := Some (ForeignError "write: no space left on device");
     CSVPurger.spilled_rows := 0;
     CSVPurger.recorded_meanwhile := [("z", "r/late")] |}.

Definition session : Session := {| session_url := "mongodb://localhost/tyk" |}.

Definition connected : MongoPurger.receiver := {| MongoPurger.dbSession := Some session |}.

Definition unconnected : MongoPurger.receiver := {| MongoPurger.dbSession := None |}.

(** A document-store cycle in which dialling and inserting succeed. *)
Definition mongo_ok : MongoPurger.Cycle :=
  {| MongoPurger.Dial_results := [(Some session, None)];
     MongoPurger.Insert_result := λ _, None;
     MongoPurger.recorded_meanwhile := [("z", "r/late")] |}.

(** A document-store cycle whose bulk insert fails. *)
Definition mongo_insert_fails : MongoPurger.Cycle :=
  {| MongoPurger.Dial_results := [(Some session, None)];
     MongoPurger.Insert_result := λ _, Some (ForeignError "insert: connection reset");
     MongoPurger.recorded_meanwhile := [("z", "r/late")] |}.

(** A document-store cycle in which the server cannot be reached. *)
Definition mongo_unreachable : MongoPurger.Cycle :=
  {| MongoPurger.Dial_results := [(None, Some (ForeignError "no reachable servers"))];
     MongoPurger.Insert_result := λ _, None;
     MongoPurger.recorded_meanwhile := [] |}.

End Sample.

(** Further cycles for the sample store. *)

Module Scenario.

(** A flat-file cycle in which the file cannot be created, while the
    buffered writer reports no error. *)
Definition csv_no_file : CSVPurger.Cycle :=
  {| CSVPurger.Now := Sample.noon;
     CSVPurger.MkdirAll_result := Some (ForeignError "mkdir /tmp/csv: permission denied");
     CSVPurger.Create_result := Some (ForeignError "open: no such file or directory");
     CSVPurger.Write_result := λ _, None;
     CSVPurger.Flush_result := Some (ForeignError "invalid argument");
     CSVPurger.spilled_rows := 0;
     CSVPurger.recorded_meanwhile := [] |}.

(** A flat-file cycle in which the file refuses the buffer during the
    second row, before anything had reached it. *)
Definition csv_second_row_fails : CSVPurger.Cycle :=
  {| CSVPurger.Now := Sample.noon;
     CSVPurger.MkdirAll_result := None;
     CSVPurger.Create_result := None;
     CSVPurger.Write_result :=
       λ n, if Nat.leb 2 n then Some (ForeignError "write: disk quota exceeded") else None;
     CSVPurger.Flush_result := Some (ForeignError "write: disk quota exceeded");
     CSVPurger.spilled_rows := 0;
     CSVPurger.recorded_meanwhile := [] |}.

(** A flat-file cycle in which the file is created and every [Write] goes
    into the buffer, but the file refuses the buffer on [Flush]. *)
Definition csv_flush_fails : CSVPurger.Cycle :=
  {| CSVPurger.Now := Sample.noon;
     CSVPurger.MkdirAll_result := None;
     CSVPurger.Create_result := None;
     CSVPurger.Write_result := λ _, None;
     CSVPurger.Flush_result := Some (ForeignError "write: no space left on device");
     CSVPurger.spilled_rows := 0;
     CSVPurger.recorded_meanwhile := [] |}.

(** A flat-file cycle in which every call succeeds and no recorder writes. *)
Definition csv_quiet : CSVPurger.Cycle :=
  {| CSVPurger.Now := Sample.noon;
     CSVPurger.MkdirAll_result := None;
     CSVPurger.Create_result := None;
     CSVPurger.Write_result := λ _, None;
     CSVPurger.Flush_result := None;
     CSVPurger.spilled_rows := 0;
     CSVPurger.recorded_meanwhile := [] |}.

(** Document-store cycles during which no recorder writes. *)
Definition mongo_quiet : MongoPurger.Cycle :=
  {| MongoPurger.Dial_results := [(Some Sample.session, None)];
     MongoPurger.Insert_result := λ _, None;
     MongoPurger.recorded_meanwhile := [] |}.

Definition mongo_quiet_failure : MongoPurger.Cycle :=
  {| MongoPurger.Dial_results := [(Some Sample.session, None)];
     MongoPurger.Insert_result := λ _, Some (ForeignError "insert: connection reset");
     MongoPurger.recorded_meanwhile := [] |}.

(** Two captures in the same hour bucket. *)
Definition hits : list (AnalyticsRecord * uuid.UUID) :=
  [(Sample.hit "/users" 0, Sample.u1); (Sample.hit "/orders" 0, Sample.u2)].

End Scenario.

(** * Properties *)

Ltac exec :=
  repeat (unfold mbind, mret, Exec_bind, Exec_ret, log.Error, log.Info, log.Panic,
            emit, panic, still_running, get_world, set_redis, set_dirs, set_files,
            enter, leave, time.Sleep, mgo.Insert, os.Close,
            RedisStorageManager.SetKey, RedisStorageManager.GetKeysAndValues,
            RedisStorageManager.DeleteKeys, RedisStorageManager.meanwhile; simpl).

(** ** Strings *)

Lemma append_nil (t : string) : "" +:+ t = t.
Proof. reflexivity. Qed.

Lemma append_cons (a : ascii) (s t : string) : String a s +:+ t = String a (s +:+ t).
Proof. reflexivity. Qed.

Lemma append_length (s t : string) :
  String.length (s +:+ t) = (String.length s + String.length t)%nat.
Proof.
  induction s as [|a s IH]; [reflexivity|].
  rewrite append_cons. simpl. now rewrite IH.
Qed.

Lemma append_assoc (s t u : string) : (s +:+ t) +:+ u = s +:+ t +:+ u.
Proof.
  induction s as [|a s IH]; [reflexivity|].
  rewrite !append_cons. now rewrite IH.
Qed.

(** Two concatenations that agree and whose tails are equally long have the
    same tail. *)
Lemma append_same_tail (p1 p2 s1 s2 : string) :
  String.length s1 = String.length s2 → p1 +:+ s1 = p2 +:+ s2 → s1 = s2.
Proof.
  revert p2. induction p1 as [|a p1 IH]; intros [|b p2] Hlen Heq;
    rewrite ?append_nil, ?append_cons in Heq.
  - exact Heq.
  - apply (f_equal String.length) in Heq. simpl in Heq.
    rewrite append_length in Heq. lia.
  - apply (f_equal String.length) in Heq. simpl in Heq.
    rewrite append_length in Heq. lia.
  - injection Heq as _ Heq. eauto.
Qed.

(** ... and with equally long heads, the same head and the same tail. *)
Lemma append_same_head (p1 p2 s1 s2 : string) :
  String.length p1 = String.length p2 → p1 +:+ s1 = p2 +:+ s2 → p1 = p2 ∧ s1 = s2.
Proof.
  revert p2. induction p1 as [|a p1 IH]; intros [|b p2] Hlen Heq;
    rewrite ?append_nil, ?append_cons in Heq; simpl in Hlen; try discriminate.
  - auto.
  - injection Heq as -> Heq. injection Hlen as Hlen.
    destruct (IH _ Hlen Heq) as [-> ->]. auto.
Qed.

(** ** Hexadecimal text *)

Lemma hex_length (bs : list byte) : String.length (Fmt.hex bs) = (2 * length bs)%nat.
Proof. induction bs as [|b bs IH]; simpl; [reflexivity | rewrite IH; lia]. Qed.

Lemma unhex_hex_byte (b : byte) :
  Byte.of_N (16 * Fmt.hex_value (Fmt.hex_digit (Byte.to_N b / 16))
             + Fmt.hex_value (Fmt.hex_digit (Byte.to_N b mod 16))) = Some b.
Proof. destruct b; vm_compute; reflexivity. Qed.

Lemma unhex_hex (bs : list byte) : Fmt.unhex (Fmt.hex bs) = bs.
Proof.
  induction bs as [|b bs IH]; simpl; [reflexivity|].
  rewrite unhex_hex_byte, IH. reflexivity.
Qed.

Lemma hex_inj (bs1 bs2 : list byte) : Fmt.hex bs1 = Fmt.hex bs2 → bs1 = bs2.
Proof. intros Heq. rewrite <- (unhex_hex bs1), <- (unhex_hex bs2). now rewrite Heq. Qed.

(** ** UUIDs *)

Lemma uuid_String_length (u : uuid.UUID) : uuid.wf u → String.length (uuid.String u) = 36%nat.
Proof.
  unfold uuid.wf, uuid.String. intros Hu.
  repeat (rewrite append_length || rewrite hex_length
          || rewrite length_take || rewrite length_drop).
  rewrite Hu. reflexivity.
Qed.

Lemma hex_group_inj (a1 a2 : list byte) (s1 s2 : string) :
  length a1 = length a2 →
  Fmt.hex a1 +:+ "-" +:+ s1 = Fmt.hex a2 +:+ "-" +:+ s2 → a1 = a2 ∧ s1 = s2.
Proof.
  intros Hlen Heq.
  apply append_same_head in Heq as [Ha Heq]; [| rewrite !hex_length; lia].
  rewrite !append_cons, !append_nil in Heq. injection Heq as Heq.
  split; [now apply hex_inj | exact Heq].
Qed.

Lemma uuid_String_inj (u1 u2 : uuid.UUID) :
  uuid.wf u1 → uuid.wf u2 → uuid.String u1 = uuid.String u2 → u1 = u2.
Proof.
  unfold uuid.wf, uuid.String. intros H1 H2 Heq.
  apply hex_group_inj in Heq as [Ha Heq]; [| rewrite !length_take; lia].
  apply hex_group_inj in Heq as [Hb Heq]; [| rewrite !length_take, !length_drop; lia].
  apply hex_group_inj in Heq as [Hc Heq]; [| rewrite !length_take, !length_drop; lia].
  apply hex_group_inj in Heq as [Hd He]; [| rewrite !length_take, !length_drop; lia].
  apply hex_inj in He.
  rewrite <- (take_drop 4 u1), <- (take_drop 4 u2). f_equal; [exact Ha|].
  rewrite <- (take_drop 2 (drop 4 u1)), <- (take_drop 2 (drop 4 u2)). f_equal; [exact Hb|].
  rewrite !drop_drop. simpl.
  rewrite <- (take_drop 2 (drop 6 u1)), <- (take_drop 2 (drop 6 u2)). f_equal; [exact Hc|].
  rewrite !drop_drop. simpl.
  rewrite <- (take_drop 2 (drop 8 u1)), <- (take_drop 2 (drop 8 u2)). f_equal; [exact Hd|].
  rewrite !drop_drop. simpl. exact He.
Qed.

(** ** Traces *)

Lemma extend_nil (w : World) : extend w [] = w.
Proof. destruct w. unfold extend. simpl. now rewrite app_nil_r. Qed.

Lemma extend_extend (w : World) (t1 t2 : list Event) :
  extend (extend w t1) t2 = extend w (t1 ++ t2).
Proof. unfold extend. simpl. now rewrite app_assoc. Qed.

Lemma deleted_keys_app (t1 t2 : list Event) :
  deleted_keys (t1 ++ t2) = deleted_keys t1 ++ deleted_keys t2.
Proof. apply bind_app. Qed.

Lemma deleted_keys_cons (e : Event) (t : list Event) :
  deleted_keys (e :: t) = deleted_by e ++ deleted_keys t.
Proof. reflexivity. Qed.

Lemma store_writes_app (t1 t2 : list Event) :
  store_writes (t1 ++ t2) = store_writes t1 ++ store_writes t2.
Proof. apply bind_app. Qed.

Lemma store_writes_cons (e : Event) (t : list Event) :
  store_writes (e :: t) = written_by e ++ store_writes t.
Proof. reflexivity. Qed.

Lemma written_rows_app (t1 t2 : list Event) :
  written_rows (t1 ++ t2) = written_rows t1 ++ written_rows t2.
Proof. apply bind_app. Qed.

Lemma written_rows_cons (e : Event) (t : list Event) :
  written_rows (e :: t) = row_of e ++ written_rows t.
Proof. reflexivity. Qed.

Lemma inserted_batches_app (t1 t2 : list Event) :
  inserted_batches (t1 ++ t2) = inserted_batches t1 ++ inserted_batches t2.
Proof. apply bind_app. Qed.

Lemma inserted_batches_cons (e : Event) (t : list Event) :
  inserted_batches (e :: t) = inserted_by e ++ inserted_batches t.
Proof. reflexivity. Qed.

Lemma logged_errors_app (t1 t2 : list Event) :
  logged_errors (t1 ++ t2) = logged_errors t1 ++ logged_errors t2.
Proof. apply bind_app. Qed.

Lemma logged_errors_cons (e : Event) (t : list Event) :
  logged_errors (e :: t) = error_logged_by e ++ logged_errors t.
Proof. reflexivity. Qed.

Lemma dials_app (t1 t2 : list Event) : dials (t1 ++ t2) = dials t1 ++ dials t2.
Proof. apply bind_app. Qed.

Lemma dials_cons (e : Event) (t : list Event) : dials (e :: t) = dialled_by e ++ dials t.
Proof. reflexivity. Qed.

Lemma snapshots_app (t1 t2 : list Event) : snapshots (t1 ++ t2) = snapshots t1 ++ snapshots t2.
Proof. apply bind_app. Qed.

Lemma snapshots_cons (e : Event) (t : list Event) :
  snapshots (e :: t) = snapshot_by e ++ snapshots t.
Proof. reflexivity. Qed.

(** Splitting an observation of a trace along the trace. *)
Ltac observe :=
  repeat (rewrite deleted_keys_cons || rewrite deleted_keys_app
          || rewrite store_writes_cons || rewrite store_writes_app
          || rewrite written_rows_cons || rewrite written_rows_app
          || rewrite inserted_batches_cons || rewrite inserted_batches_app
          || rewrite logged_errors_cons || rewrite logged_errors_app
          || rewrite dials_cons || rewrite dials_app
          || rewrite snapshots_cons || rewrite snapshots_app).

(** Two worlds that differ in how their traces are bracketed. *)
Ltac same_world := unfold extend; simpl; rewrite <- ?app_assoc; simpl; reflexivity.

(** ** RecordHit *)

Section RecordHit_facts.
Context `{Msgpack}.

Lemma RecordHit_keyName (thisRecord : AnalyticsRecord) (u5 : uuid.UUID) :
  RedisAnalyticsHandler.keyName thisRecord u5 =
    (Fmt.Itoa (Year thisRecord) +:+ Fmt.Itoa (Month thisRecord) +:+
     Fmt.Itoa (Day thisRecord) +:+ Fmt.Itoa (Hour thisRecord)) +:+ "-" +:+ uuid.String u5.
Proof. unfold RedisAnalyticsHandler.keyName. now rewrite !append_assoc. Qed.

Lemma RecordHit_not_encoded (thisRecord : AnalyticsRecord) (u5 : uuid.UUID)
    (uerr : option error) (e : error) (w : World) :
  (Marshal thisRecord).2 = Some e →
  RedisAnalyticsHandler.RecordHit thisRecord (Some u5, uerr) w =
    (Returned (Some AnalyticsError),
     extend w [EvLog ErrorLevel (Msg "Error encoding analytics data:");
               EvLog ErrorLevel (Err e)]).
Proof.
  intros He. unfold RedisAnalyticsHandler.RecordHit.
  destruct (Marshal thisRecord) as [encoded err]. simpl in He. subst err.
  exec. unfold extend; simpl. now rewrite <- app_assoc.
Qed.

Lemma RecordHit_encoded (thisRecord : AnalyticsRecord) (u5 : uuid.UUID)
    (uerr : option error) (w : World) :
  (Marshal thisRecord).2 = None →
  RedisAnalyticsHandler.RecordHit thisRecord (Some u5, uerr) w =
    (Returned None,
     mkWorld (<[RedisAnalyticsHandler.keyName thisRecord u5 := (Marshal thisRecord).1]> (redis w))
       (dirs w) (files w) (stack w)
       (trace w ++ [EvStore (CallSetKey (RedisAnalyticsHandler.keyName thisRecord u5)
                                        (Marshal thisRecord).1 0)])).
Proof.
  intros He. unfold RedisAnalyticsHandler.RecordHit.
  destruct (Marshal thisRecord) as [encoded err]. simpl in He. subst err.
  exec. reflexivity.
Qed.

Lemma RecordHit_nil_uuid (thisRecord : AnalyticsRecord) (uerr : option error) (w : World) :
  RedisAnalyticsHandler.RecordHit thisRecord (None, uerr) w = (Panicked NilPointerDereference, w).
Proof.
  unfold RedisAnalyticsHandler.RecordHit.
  destruct (Marshal thisRecord) as [encoded err]. exec. reflexivity.
Qed.

End RecordHit_facts.

(** C2. In a call of [RecordHit] that gets its UUID ([uuid.NewV4] handed
    back a UUID, whatever error came with it): when encoding the record
    fails, the call returns [AnalyticsError], the store is as it was and no
    [SetKey] call is made, so the record is dropped; when encoding succeeds,
    the call makes exactly one [SetKey] call (key [keyName], the encoded
    payload, no expiration) and returns nil. *)
Theorem RecordHit_fails_fast_or_writes_once `{Msgpack}
    (thisRecord : AnalyticsRecord) (u5 : uuid.UUID) (uerr : option error) (w : World) :
  let result := RedisAnalyticsHandler.RecordHit thisRecord (Some u5, uerr) w in
  ((Marshal thisRecord).2 ≠ None →
     result.1 = Returned (Some AnalyticsError) ∧
     redis result.2 = redis w ∧
     store_writes (trace result.2) = store_writes (trace w)) ∧
  ((Marshal thisRecord).2 = None →
     result.1 = Returned None ∧
     redis result.2 =
       <[RedisAnalyticsHandler.keyName thisRecord u5 := (Marshal thisRecord).1]> (redis w) ∧
     store_writes (trace result.2) =
       store_writes (trace w) ++
       [(RedisAnalyticsHandler.keyName thisRecord u5, (Marshal thisRecord).1, 0)]).
Proof.
  intros result. subst result. split.
  - intros Hfail. destruct (Marshal thisRecord).2 as [e|] eqn:He; [|congruence].
    rewrite (RecordHit_not_encoded _ _ _ e) by exact He.
    unfold extend; simpl. rewrite store_writes_app. simpl.
    now rewrite app_nil_r.
  - intros Hok. rewrite RecordHit_encoded by exact Hok. simpl.
    rewrite store_writes_app. auto.
Qed.

Lemma RecordHit_fails_fast_or_writes_once_witness :
  let failing :=
    @RedisAnalyticsHandler.RecordHit Sample.codec (Sample.hit "/users" (-7))
      (Some Sample.u1, None) Sample.empty_world in
  let passing :=
    @RedisAnalyticsHandler.RecordHit Sample.codec (Sample.hit "/users" 120)
      (Some Sample.u1, None) Sample.empty_world in
  (failing.1 = Returned (Some AnalyticsError) ∧ redis failing.2 = ∅ ∧
   store_writes (trace failing.2) = []) ∧
  (passing.1 = Returned None ∧
   store_writes (trace passing.2) =
     [("2014357-0001abff-1011-1213-1415-161718191a1b", "r/users", 0)]).
Proof.
  intros failing passing. split.
  - apply (@RecordHit_fails_fast_or_writes_once Sample.codec
             (Sample.hit "/users" (-7)) Sample.u1 None Sample.empty_world).
    vm_compute. discriminate.
  - pose proof (@RecordHit_fails_fast_or_writes_once Sample.codec
             (Sample.hit "/users" 120) Sample.u1 None Sample.empty_world) as [_ Hok].
    destruct Hok as (Hret & _ & Hwrites); [reflexivity|].
    split; [exact Hret | exact Hwrites].
Defined.

(** C10, as amended. [RecordHit] throws away the error of [uuid.NewV4]: its
    behaviour depends on the returned pointer only. When UUID generation
    fails the pointer is not nil: it points to the zero UUID, and the call
    goes on exactly as if the zero UUID had been generated. So [RecordHit]
    returns whether or not generation succeeded, with nil and one store
    write under the key of the UUID it was handed when the record encodes,
    with [AnalyticsError] when it does not. Only a nil pointer makes it
    panic, and [uuid.NewV4] never returns one. *)
Theorem RecordHit_goes_on_with_the_zero_uuid `{Msgpack} (thisRecord : AnalyticsRecord)
    (w : World) :
  (∀ (u5 : option uuid.UUID) (e1 e2 : option error),
     RedisAnalyticsHandler.RecordHit thisRecord (u5, e1) w =
     RedisAnalyticsHandler.RecordHit thisRecord (u5, e2) w) ∧
  (∀ drawn : option uuid.UUID,
     (uuid.NewV4 drawn).2 ≠ None →
     (uuid.NewV4 drawn).1 = Some uuid.zero ∧
     RedisAnalyticsHandler.RecordHit thisRecord (uuid.NewV4 drawn) w =
       RedisAnalyticsHandler.RecordHit thisRecord (Some uuid.zero, None) w) ∧
  (∀ drawn : option uuid.UUID,
     ∃ u5 : uuid.UUID,
       (uuid.NewV4 drawn).1 = Some u5 ∧
       ((Marshal thisRecord).2 = None →
          (RedisAnalyticsHandler.RecordHit thisRecord (uuid.NewV4 drawn) w).1 = Returned None ∧
          store_writes
            (since w (RedisAnalyticsHandler.RecordHit thisRecord (uuid.NewV4 drawn) w).2) =
            [(RedisAnalyticsHandler.keyName thisRecord u5, (Marshal thisRecord).1, 0)]) ∧
       ((Marshal thisRecord).2 ≠ None →
          (RedisAnalyticsHandler.RecordHit thisRecord (uuid.NewV4 drawn) w).1 =
            Returned (Some AnalyticsError))) ∧
  (∀ e : option error,
     RedisAnalyticsHandler.RecordHit thisRecord (None, e) w =
       (Panicked NilPointerDereference, w)).
Proof.
  split; [|split; [|split]].
  - intros u5 e1 e2. unfold RedisAnalyticsHandler.RecordHit.
    destruct (Marshal thisRecord); reflexivity.
  - intros [u|] Hfail; simpl in *; [congruence|].
    split; [reflexivity|]. unfold RedisAnalyticsHandler.RecordHit.
    destruct (Marshal thisRecord); reflexivity.
  - intros drawn.
    assert (∃ u5 e, uuid.NewV4 drawn = (Some u5, e)) as (u5 & e & Hnew)
      by (destruct drawn; simpl; eauto).
    exists u5. rewrite Hnew. split; [reflexivity|]. split.
    + intros Hok. rewrite RecordHit_encoded by exact Hok. simpl.
      split; [reflexivity|]. unfold since. simpl. rewrite drop_app_length. reflexivity.
    + intros Hbad. destruct (Marshal thisRecord).2 as [cause|] eqn:He; [|congruence].
      now rewrite (RecordHit_not_encoded _ _ _ cause) by exact He.
  - intros e. apply RecordHit_nil_uuid.
Qed.

Lemma RecordHit_goes_on_with_the_zero_uuid_witness :
  (uuid.NewV4 None).1 = Some uuid.zero ∧
  store_writes
    (since Sample.empty_world
       (@RedisAnalyticsHandler.RecordHit Sample.codec (Sample.hit "/users" 120)
          (uuid.NewV4 None) Sample.empty_world).2) =
    [("2014357-00000000-0000-0000-0000-000000000000", "r/users", 0)].
Proof.
  destruct (@RecordHit_goes_on_with_the_zero_uuid Sample.codec (Sample.hit "/users" 120)
              Sample.empty_world) as (_ & Hzero & Htotal & _).
  split.
  - apply (Hzero None). simpl. discriminate.
  - destruct (Htotal None) as (u5 & Hu5 & Hok & _).
    injection Hu5 as <-. apply Hok. reflexivity.
Defined.

(** C10, as stated, fails: when UUID generation fails the UUID handed back
    is not nil, and [RecordHit] does not panic: it returns nil and stages
    the record. *)
Lemma RecordHit_survives_a_failed_uuid :
  (uuid.NewV4 None).2 ≠ None ∧
  (uuid.NewV4 None).1 ≠ None ∧
  (@RedisAnalyticsHandler.RecordHit Sample.codec (Sample.hit "/users" 120)
     (uuid.NewV4 None) Sample.empty_world).1 = Returned None ∧
  (@RedisAnalyticsHandler.RecordHit Sample.codec (Sample.hit "/users" 120)
     (uuid.NewV4 None) Sample.empty_world).1 ≠ Panicked NilPointerDereference.
Proof. repeat split; vm_compute; discriminate. Qed.

(** ** Staging keys *)

Section Staging_keys.
Context `{Msgpack}.

Lemma keyName_suffix_inj (r1 r2 : AnalyticsRecord) (u1 u2 : uuid.UUID) :
  uuid.wf u1 → uuid.wf u2 →
  RedisAnalyticsHandler.keyName r1 u1 = RedisAnalyticsHandler.keyName r2 u2 → u1 = u2.
Proof.
  intros Hu1 Hu2. rewrite !RecordHit_keyName. intros Heq.
  apply append_same_tail in Heq.
  - rewrite !append_cons, !append_nil in Heq. injection Heq as Heq.
    now apply uuid_String_inj.
  - rewrite !append_length, !uuid_String_length by assumption. reflexivity.
Qed.

Lemma keyNames_NoDup (hits : list (AnalyticsRecord * uuid.UUID)) :
  Forall uuid.wf hits.*2 → NoDup hits.*2 →
  NoDup (map (λ h, RedisAnalyticsHandler.keyName h.1 h.2) hits).
Proof.
  induction hits as [|[r u] hits IH]; simpl; intros Hwf Hnd.
  - constructor.
  - apply Forall_cons in Hwf as [Hu Hwf]. apply NoDup_cons in Hnd as [Hnotin Hnd].
    constructor; [|now apply IH].
    intros Hin. apply list_elem_of_fmap in Hin as ([r' u'] & Heq & Hin'). simpl in Heq.
    apply keyName_suffix_inj in Heq; [| exact Hu |].
    + subst u'. apply Hnotin. apply list_elem_of_fmap. now exists (r', u).
    + rewrite Forall_forall in Hwf. apply Hwf.
      apply list_elem_of_fmap. now exists (r', u').
Qed.

Lemma RecordHits_written_keys (hits : list (AnalyticsRecord * uuid.UUID)) (w : World) :
  ∃ w',
    RedisAnalyticsHandler.RecordHits (map (λ h, (h.1, (Some h.2, None))) hits) w =
      (Returned (map (λ h, if encodes h.1 then None else Some AnalyticsError) hits), w') ∧
    written_keys (trace w') =
      written_keys (trace w) ++
      map (λ h, RedisAnalyticsHandler.keyName h.1 h.2) (filter (λ h, encodes h.1 = true) hits).
Proof.
  revert w. induction hits as [|[r u] hits IH]; intros w; simpl.
  - exists w. split; [reflexivity | now rewrite app_nil_r].
  - rewrite filter_cons. simpl.
    destruct (Marshal r).2 as [e|] eqn:He.
    + assert (encodes r = false) as Henc by (unfold encodes; now rewrite He).
      rewrite Henc. rewrite decide_False by discriminate.
      destruct (IH (extend w [EvLog ErrorLevel (Msg "Error encoding analytics data:");
                              EvLog ErrorLevel (Err e)])) as (w' & Hrun & Hkeys).
      exists w'. split.
      * unfold mbind, Exec_bind. rewrite (RecordHit_not_encoded _ _ _ e) by exact He.
        fold (@mbind Exec _). unfold mbind, Exec_bind. rewrite Hrun. reflexivity.
      * rewrite Hkeys.
        unfold extend, written_keys; simpl. rewrite store_writes_app. simpl.
        now rewrite app_nil_r.
    + assert (encodes r = true) as Henc by (unfold encodes; now rewrite He).
      rewrite Henc. rewrite decide_True by reflexivity.
      destruct (IH (mkWorld (<[RedisAnalyticsHandler.keyName r u := (Marshal r).1]> (redis w))
                      (dirs w) (files w) (stack w)
                      (trace w ++ [EvStore (CallSetKey (RedisAnalyticsHandler.keyName r u)
                                                       (Marshal r).1 0)])))
        as (w' & Hrun & Hkeys).
      exists w'. split.
      * unfold mbind, Exec_bind. rewrite RecordHit_encoded by exact He.
        fold (@mbind Exec _). unfold mbind, Exec_bind. rewrite Hrun. reflexivity.
      * rewrite Hkeys.
        unfold written_keys; simpl. rewrite store_writes_app, !fmap_app. simpl.
        now rewrite <- app_assoc.
Qed.

End Staging_keys.

(** C8. Two captures in the same hour during which UUID generation fails.
    [RecordHit] drops the error of [uuid.NewV4] and builds both staging keys
    from the zero UUID it was handed: the two keys are the same key, made of
    the year, month, day and hour of the records and the zero UUID, and the
    second capture overwrites the first in the store. *)
Theorem failed_uuids_share_one_staging_key :
  let run :=
    @RedisAnalyticsHandler.RecordHits Sample.codec
      [(Sample.hit "/users" 0, uuid.NewV4 None); (Sample.hit "/orders" 0, uuid.NewV4 None)]
      Sample.empty_world in
  run.1 = Returned [None; None] ∧
  written_keys (trace run.2) =
    ["2014357-00000000-0000-0000-0000-000000000000";
     "2014357-00000000-0000-0000-0000-000000000000"] ∧
  ¬ NoDup (written_keys (trace run.2)) ∧
  map_to_list (redis run.2) =
    [("2014357-00000000-0000-0000-0000-000000000000", "r/orders")].
Proof.
  vm_compute. repeat split.
  intros Hnd. apply NoDup_cons in Hnd as [Hnotin _]. apply Hnotin. apply list_elem_of_here.
Qed.

(** ** The flat-file drain cycle *)

Section CSV_cycle.
Context `{Msgpack} `{MapRange} (config : AnalyticsConfig).

Lemma decoded_rows_skip k v rest :
  decodes v = false → decoded_rows ((k, v) :: rest) = decoded_rows rest.
Proof. intros Hv. unfold decoded_rows. simpl. now rewrite Hv. Qed.

Lemma decoded_rows_keep k v rest :
  decodes v = true →
  decoded_rows ((k, v) :: rest) = CSVPurger.toWrite (Unmarshal v).1 :: decoded_rows rest.
Proof. intros Hv. unfold decoded_rows. simpl. now rewrite Hv. Qed.

Lemma csv_each_entry (io : CSVPurger.Cycle) (entries : list (string * string)) :
  ∀ (writer : csv.Writer) (keys : list string) (w : World),
  ∃ (writer' : csv.Writer) (t : list Event),
    CSVPurger.each_entry io entries writer keys w =
      (Returned (writer', keys ++ entries.*1), extend w t) ∧
    written_rows t = decoded_rows entries ∧
    deleted_keys t = [] ∧
    store_writes t = [] ∧
    csv.out writer' = csv.out writer ∧
    ((∀ n, CSVPurger.Write_result io n = None) → csv.failed writer = None →
       csv.buffered writer' = csv.buffered writer ++ decoded_rows entries ∧
       csv.failed writer' = None) ∧
    (∀ k v, (k, v) ∈ entries → decodes v = false →
       Msg "Couldn't unmarshal analytics data:" ∈ logged_errors t).
Proof.
  induction entries as [|[k v] rest IH]; intros writer keys w.
  - exists writer, []. simpl. rewrite extend_nil, !app_nil_r.
    split; [reflexivity|]. split; [reflexivity|]. split; [reflexivity|].
    split; [reflexivity|]. split; [reflexivity|]. split; [auto|].
    intros k v Hin. inversion Hin.
  - simpl. destruct (Unmarshal v) as [decoded [e|]] eqn:Hv; simpl.
    + assert (decodes v = false) as Hbad by (unfold decodes; now rewrite Hv).
      exec.
      match goal with
      | |- context [CSVPurger.each_entry io rest ?wr ?ks ?w1] =>
          destruct (IH wr ks w1) as (writer' & t & Hrun & Hrows & Hdel & Hset & Hout & Hbuf & Hlog)
      end.
      rewrite Hrun.
      exists writer', ([EvLog ErrorLevel (Msg "Couldn't unmarshal analytics data:");
                        EvLog ErrorLevel (Err e)] ++ t).
      split; [rewrite <- app_assoc; same_world|].
      rewrite written_rows_app, deleted_keys_app, store_writes_app, Hrows, Hdel, Hset.
      rewrite decoded_rows_skip by exact Hbad.
      split; [reflexivity|]. split; [reflexivity|]. split; [reflexivity|].
      split; [exact Hout|]. split; [exact Hbuf|].
      intros k0 v0 Hin Hv0. rewrite logged_errors_app. apply elem_of_app. left.
      simpl. apply list_elem_of_here.
    + assert (decodes v = true) as Hgood by (unfold decodes; now rewrite Hv).
      assert ((Unmarshal v).1 = decoded) as Hdec by now rewrite Hv.
      unfold csv.Write. exec.
      destruct (csv.failed writer) as [e0|] eqn:Hf; exec;
        [|destruct (CSVPurger.Write_result io (csv.served writer)) as [e|] eqn:Hw; exec].
      * match goal with
        | |- context [CSVPurger.each_entry io rest ?wr ?ks ?w1] =>
            destruct (IH wr ks w1) as (writer' & t & Hrun & Hrows & Hdel & Hset & Hout & Hbuf & Hlog)
        end.
        rewrite Hrun.
        exists writer', ([EvWrite (CSVPurger.toWrite decoded);
                          EvLog ErrorLevel (Msg "File write failed!");
                          EvLog ErrorLevel (Err e0)] ++ t).
        split; [rewrite <- app_assoc; same_world|].
        rewrite written_rows_app, deleted_keys_app, store_writes_app, Hrows, Hdel, Hset.
        rewrite decoded_rows_keep, Hdec by exact Hgood.
        split; [reflexivity|]. split; [reflexivity|]. split; [reflexivity|].
        split; [exact Hout|]. split; [intros _ Hnone; discriminate|].
        intros k0 v0 Hin Hv0. rewrite logged_errors_app. apply elem_of_app.
        apply elem_of_cons in Hin as [Heq | Hin]; [congruence|]. right. eauto.
      * match goal with
        | |- context [CSVPurger.each_entry io rest ?wr ?ks ?w1] =>
            destruct (IH wr ks w1) as (writer' & t & Hrun & Hrows & Hdel & Hset & Hout & Hbuf & Hlog)
        end.
        rewrite Hrun.
        exists writer', ([EvWrite (CSVPurger.toWrite decoded);
                          EvLog ErrorLevel (Msg "File write failed!");
                          EvLog ErrorLevel (Err e)] ++ t).
        split; [rewrite <- app_assoc; same_world|].
        rewrite written_rows_app, deleted_keys_app, store_writes_app, Hrows, Hdel, Hset.
        rewrite decoded_rows_keep, Hdec by exact Hgood.
        split; [reflexivity|]. split; [reflexivity|]. split; [reflexivity|].
        split; [exact Hout|]. split.
        -- intros Hall. rewrite Hall in Hw. discriminate.
        -- intros k0 v0 Hin Hv0. rewrite logged_errors_app. apply elem_of_app.
           apply elem_of_cons in Hin as [Heq | Hin]; [congruence|]. right. eauto.
      * match goal with
        | |- context [CSVPurger.each_entry io rest ?wr ?ks ?w1] =>
            destruct (IH wr ks w1) as (writer' & t & Hrun & Hrows & Hdel & Hset & Hout & Hbuf & Hlog)
        end.
        rewrite Hrun.
        exists writer', ([EvWrite (CSVPurger.toWrite decoded)] ++ t).
        split; [rewrite <- app_assoc; same_world|].
        rewrite written_rows_app, deleted_keys_app, store_writes_app, Hrows, Hdel, Hset.
        rewrite decoded_rows_keep, Hdec by exact Hgood.
        split; [reflexivity|]. split; [reflexivity|]. split; [reflexivity|].
        split; [exact Hout|]. split.
        -- intros Hall _. destruct (Hbuf Hall eq_refl) as [Hb Hnf].
           rewrite Hb. simpl. rewrite <- app_assoc. auto.
        -- intros k0 v0 Hin Hv0. rewrite logged_errors_app. apply elem_of_app.
           apply elem_of_cons in Hin as [Heq | Hin]; [congruence|]. right. eauto.
Qed.

Lemma csv_PurgeCache_header_written (io : CSVPurger.Cycle) (w : World) :
  CSVPurger.Write_result io 0%nat = None →
  ∃ (w' : World) (t : list Event),
    CSVPurger.PurgeCache config io w = (Returned tt, w') ∧
    trace w' = trace w ++ t ∧
    stack w' = stack w ∧
    redis w' =
      RedisStorageManager.delete_all (range (redis w)).*1
        (after_puts (CSVPurger.recorded_meanwhile io) (redis w)) ∧
    deleted_keys t = (range (redis w)).*1 ∧
    store_writes t = [] ∧
    written_rows t = CSVPurger.headers :: decoded_rows (range (redis w)) ∧
    (CSVPurger.MkdirAll_result io = None → dirs w' = {[CSVDir config]} ∪ dirs w) ∧
    (CSVPurger.Create_result io = None →
     (∀ n, CSVPurger.Write_result io n = None) →
     CSVPurger.Flush_result io = None →
     files w' =
       <[CSVPurger.fname config (CSVPurger.Now io) :=
           CSVPurger.headers :: decoded_rows (range (redis w))]> (files w)) ∧
    (∀ k v, (k, v) ∈ range (redis w) → decodes v = false →
       Msg "Couldn't unmarshal analytics data:" ∈ logged_errors t).
Proof.
  intros Hhdr. unfold CSVPurger.PurgeCache, os.MkdirAll, os.Create, csv.Write, csv.Flush.
  destruct (CSVPurger.MkdirAll_result io) as [me|] eqn:Hmk;
  destruct (CSVPurger.Create_result io) as [ce|] eqn:Hcr; exec; rewrite Hhdr; exec.
  all: match goal with
       | |- context [CSVPurger.each_entry ?c ?es ?wr ?ks ?w1] =>
           destruct (csv_each_entry c es wr ks w1)
             as (writer' & t & Hrun & Hrows & Hdel & Hset & Hout & Hbuf & Hlog)
       end; rewrite Hrun; exec; simpl in Hout; rewrite Hout; exec.
  all: eexists; eexists; split; [reflexivity|]; simpl.
  all: rewrite <- ?app_assoc; simpl.
  all: (split; [reflexivity|]); (split; [reflexivity|]); (split; [reflexivity|]).
  all: (split; [observe; rewrite Hdel; simpl; now rewrite ?app_nil_r|]).
  all: (split; [observe; rewrite Hset; reflexivity|]).
  all: (split; [observe; rewrite Hrows; simpl; now rewrite ?app_nil_r|]).
  all: (split; [try discriminate; reflexivity|]).
  all: split; [try discriminate |
               intros k v Hin Hbad; observe; simpl;
               rewrite ?elem_of_cons, ?elem_of_app; eauto 10].
  all: intros _ Hall Hflush; rewrite lookup_insert_eq, insert_insert_eq; simpl.
  all: destruct (Hbuf Hall eq_refl) as [Hb Hnf].
  all: unfold csv.carried; rewrite Hnf, Hflush, Hb; reflexivity.
Qed.

Lemma csv_PurgeCache_header_failed (io : CSVPurger.Cycle) (w : World) (e : error) :
  CSVPurger.Write_result io 0%nat = Some e →
  ∃ (w' : World) (t : list Event),
    CSVPurger.PurgeCache config io w = (Returned tt, w') ∧
    trace w' = trace w ++ t ∧
    stack w' = stack w ∧
    redis w' = redis w ∧
    deleted_keys t = [] ∧
    store_writes t = [] ∧
    written_rows t = [CSVPurger.headers] ∧
    EvStore CallGetKeysAndValues ∉ t.
Proof.
  intros Hhdr. unfold CSVPurger.PurgeCache, os.MkdirAll, os.Create, csv.Write, csv.Flush.
  destruct (CSVPurger.MkdirAll_result io) as [me|] eqn:Hmk;
  destruct (CSVPurger.Create_result io) as [ce|] eqn:Hcr; exec; rewrite Hhdr; exec.
  all: eexists; eexists; split; [reflexivity|]; simpl.
  all: rewrite <- ?app_assoc; simpl.
  all: repeat (split; [reflexivity|]).
  all: repeat (apply not_elem_of_cons; split; [discriminate|]); apply not_elem_of_nil.
Qed.
End CSV_cycle.

(** ** The document-store drain cycle *)

Section Mongo_cycle.
Context `{Msgpack} `{MapRange} (config : AnalyticsConfig).

Lemma decoded_slots_nil : decoded_slots [] = [].
Proof. reflexivity. Qed.

Lemma decoded_slots_cons k v rest :
  decoded_slots ((k, v) :: rest) =
    (if decodes v then Some (Unmarshal v).1 else None) :: decoded_slots rest.
Proof. reflexivity. Qed.

Lemma range_length (m : gmap string string) : length (range m) = size m.
Proof. rewrite (range_visits_all m). apply length_map_to_list. Qed.

Lemma insert_at_end {A} (pre : list A) (i : nat) (x y : A) (post : list A) :
  i = length pre → <[i := x]> (pre ++ y :: post) = (pre ++ [x]) ++ post.
Proof.
  intros ->. rewrite insert_app_r_alt by lia. rewrite Nat.sub_diag. simpl.
  now rewrite <- app_assoc.
Qed.

Lemma mongo_each_entry (entries : list (string * string)) :
  ∀ (pre : list (option AnalyticsRecord)) (names : list string) (n : nat) (w : World),
  length pre = length names →
  (length entries ≤ n)%nat →
  ∃ t : list Event,
    MongoPurger.each_entry entries (pre ++ replicate n None) (names ++ replicate n "")
      (length pre) w =
      (Returned (pre ++ decoded_slots entries ++ replicate (n - length entries) None,
                 names ++ entries.*1 ++ replicate (n - length entries) ""),
       extend w t) ∧
    deleted_keys t = [] ∧ store_writes t = [] ∧ inserted_batches t = [] ∧
    dials t = [] ∧ snapshots t = [] ∧
    (∀ k v, (k, v) ∈ entries → decodes v = false →
       Msg "Couldn't unmarshal analytics data:" ∈ logged_errors t).
Proof.
  induction entries as [|[k v] rest IH]; intros pre names n w Hlen Hn.
  - exists []. simpl. rewrite extend_nil, ?decoded_slots_nil, Nat.sub_0_r. simpl.
    repeat split; try reflexivity. intros k v Hin. inversion Hin.
  - destruct n as [|n]; [simpl in Hn; lia|]. simpl in Hn.
    rewrite decoded_slots_cons. simpl.
    rewrite (insert_at_end names) by exact Hlen.
    destruct (Unmarshal v) as [decoded [e|]] eqn:Hv.
    + assert (decodes v = false) as Hbad by (unfold decodes; now rewrite Hv).
      rewrite Hbad. exec.
      destruct (IH (pre ++ [None]) (names ++ [k]) n
                  (extend w [EvLog ErrorLevel (Msg "Couldn't unmarshal analytics data:");
                             EvLog ErrorLevel (Err e)]))
        as (t & Hrun & Hdel & Hset & Hins & Hdial & Hsnap & Hlog);
        [rewrite !length_app; simpl; lia | lia |].
      rewrite length_app in Hrun. simpl in Hrun.
      rewrite <- !app_assoc in Hrun. simpl in Hrun.
      rewrite <- !app_assoc. simpl.
      match goal with
      | |- context [MongoPurger.each_entry rest _ _ _ ?w1] =>
          replace w1 with
            (extend w [EvLog ErrorLevel (Msg "Couldn't unmarshal analytics data:");
                       EvLog ErrorLevel (Err e)]) by same_world
      end.
      rewrite Hrun.
      exists ([EvLog ErrorLevel (Msg "Couldn't unmarshal analytics data:");
               EvLog ErrorLevel (Err e)] ++ t).
      rewrite extend_extend.
      split; [reflexivity|].
      observe. rewrite Hdel, Hset, Hins, Hdial, Hsnap. simpl.
      repeat split; auto.
      intros k0 v0 Hin Hv0. apply list_elem_of_here.
    + assert (decodes v = true) as Hgood by (unfold decodes; now rewrite Hv).
      rewrite Hgood. rewrite (insert_at_end pre) by reflexivity. exec.
      destruct (IH (pre ++ [Some decoded]) (names ++ [k]) n w)
        as (t & Hrun & Hdel & Hset & Hins & Hdial & Hsnap & Hlog);
        [rewrite !length_app; simpl; lia | lia |].
      rewrite length_app in Hrun. simpl in Hrun.
      rewrite Hrun. exists t.
      rewrite <- !app_assoc. simpl.
      split; [reflexivity|].
      repeat split; auto.
      intros k0 v0 Hin Hv0.
      apply elem_of_cons in Hin as [Heq | Hin]; [congruence | eauto].
Qed.

Lemma mongo_PurgeCache_connected (ds : list (option Session * option error))
    (io : MongoPurger.Cycle) (m : MongoPurger.receiver) (session : Session) (w : World) :
  MongoPurger.dbSession m = Some session →
  ∃ (w' : World) (t : list Event),
    MongoPurger.PurgeCache_from config ds io m w = (Returned m, w') ∧
    trace w' = trace w ++ t ∧
    stack w' = stack w ∧
    snapshots t = [tt] ∧
    dials t = [] ∧
    store_writes t = [] ∧
    inserted_batches t =
      (if decide (0 < size (redis w))%nat then [decoded_slots (range (redis w))] else []) ∧
    (∀ k v, (k, v) ∈ range (redis w) → decodes v = false →
       Msg "Couldn't unmarshal analytics data:" ∈ logged_errors t) ∧
    match bulk_insert_error io (redis w) with
    | None =>
        redis w' =
          RedisStorageManager.delete_all (range (redis w)).*1
            (after_puts (MongoPurger.recorded_meanwhile io) (redis w)) ∧
        deleted_keys t = (range (redis w)).*1
    | Some e =>
        redis w' = after_puts (MongoPurger.recorded_meanwhile io) (redis w) ∧
        deleted_keys t = [] ∧
        Msg "Problem inserting to mongo collection" ∈ logged_errors t ∧
        Err e ∈ logged_errors t
    end.
Proof.
  intros Hm. unfold bulk_insert_error.
  destruct ds as [|d ds]; simpl; rewrite Hm; exec.
  all: destruct (decide (0 < size (redis w))%nat) as [Hpos | Hzero].
  all: try (assert (range (redis w) = []) as Hnil
              by (apply length_zero_iff_nil; rewrite range_length; lia);
            rewrite Hnil; eexists; eexists; split; [reflexivity|]; simpl;
            repeat split; try reflexivity; intros k v Hin; inversion Hin).
  all: destruct (mongo_each_entry (range (redis w)) [] [] (size (redis w))
         (mkWorld (after_puts (MongoPurger.recorded_meanwhile io) (redis w)) (dirs w)
            (files w) (stack w) (trace w ++ [EvStore CallGetKeysAndValues])))
         as (t & Hrun & Hdel & Hset & Hins & Hdial & Hsnap & Hlog);
         [reflexivity | rewrite range_length; lia |].
  all: simpl in Hrun; rewrite range_length, Nat.sub_diag in Hrun; simpl in Hrun;
       rewrite !app_nil_r in Hrun.
  all: exec; rewrite Hrun; exec.
  all: destruct (MongoPurger.Insert_result io (decoded_slots (range (redis w))))
         as [e|] eqn:Hres; exec.
  all: eexists; eexists; split; [reflexivity|]; simpl.
  all: rewrite <- ?app_assoc; simpl.
  all: (split; [reflexivity|]); (split; [reflexivity|]).
  all: (split; [observe; rewrite Hsnap; reflexivity|]).
  all: (split; [observe; rewrite Hdial; reflexivity|]).
  all: (split; [observe; rewrite Hset; reflexivity|]).
  all: (split; [observe; rewrite Hins; reflexivity|]).
  all: (split; [intros k v Hin Hbad; observe; simpl;
                rewrite ?elem_of_cons, ?elem_of_app; eauto 10|]).
  all: observe; rewrite Hdel; simpl; rewrite ?app_nil_r.
  all: repeat split; try reflexivity.
  all: rewrite ?elem_of_cons, ?elem_of_app; eauto 10.
  all: right; rewrite !elem_of_cons; auto.
Qed.

Lemma mongo_PurgeCache_connects (d : option Session * option error)
    (ds : list (option Session * option error))
    (io : MongoPurger.Cycle) (m : MongoPurger.receiver) (w : World) :
  MongoPurger.dbSession m = None →
  d.2 = None →
  MongoPurger.PurgeCache_from config (d :: ds) io m w =
    MongoPurger.PurgeCache_from config ds io {| MongoPurger.dbSession := d.1 |}
      (extend w [EvLog InfoLevel (Msg "Not connected to analytics store, connecting...");
                 EvDial (MongoURL config)]).
Proof.
  intros Hm Hd. destruct d as [s err]. simpl in Hd. subst err.
  simpl. rewrite Hm. unfold MongoPurger.Connect. exec.
  f_equal. same_world.
Qed.

Lemma mongo_PurgeCache_dial_fails (d : option Session * option error)
    (ds : list (option Session * option error))
    (io : MongoPurger.Cycle) (m : MongoPurger.receiver) (e : error) (w : World) :
  MongoPurger.dbSession m = None →
  d.2 = Some e →
  MongoPurger.PurgeCache_from config (d :: ds) io m w =
    (Panicked (LogPanic e),
     extend w [EvLog InfoLevel (Msg "Not connected to analytics store, connecting...");
               EvDial (MongoURL config);
               EvLog ErrorLevel (Msg "Mongo connection failed:");
               EvLog PanicLevel (Err e)]).
Proof.
  intros Hm Hd. destruct d as [s err]. simpl in Hd. subst err.
  simpl. rewrite Hm. unfold MongoPurger.Connect. exec.
  f_equal. same_world.
Qed.
End Mongo_cycle.

(** ** The staging store *)

Lemma since_app (w w' : World) (t : list Event) :
  trace w' = trace w ++ t → since w w' = t.
Proof. intros Ht. unfold since. rewrite Ht. apply drop_app_length. Qed.

Lemma delete_all_lookup (keys : list string) (m : gmap string string) (k : string) :
  RedisStorageManager.delete_all keys m !! k = if decide (k ∈ keys) then None else m !! k.
Proof.
  induction keys as [|k' keys IH].
  - reflexivity.
  - change (RedisStorageManager.delete_all (k' :: keys) m)
      with (delete k' (RedisStorageManager.delete_all keys m)).
    destruct (decide (k' = k)) as [->|Hne].
    + rewrite lookup_delete_eq.
      destruct (decide (k ∈ k :: keys)) as [Hin|Hnotin]; [reflexivity|].
      exfalso. apply Hnotin, list_elem_of_here.
    + rewrite lookup_delete_ne by exact Hne. rewrite IH.
      destruct (decide (k ∈ keys)) as [Hin|Hnotin];
        destruct (decide (k ∈ k' :: keys)) as [Hin'|Hnotin']; try reflexivity; exfalso.
      * apply Hnotin'. now apply list_elem_of_further.
      * apply elem_of_cons in Hin' as [Heq|Hin']; congruence.
Qed.

Lemma after_puts_untouched (puts : list (string * string)) (m : gmap string string)
    (k : string) :
  k ∉ puts.*1 → after_puts puts m !! k = m !! k.
Proof.
  revert m. induction puts as [|[k' v'] puts IH]; intros m Hk; simpl in *.
  - reflexivity.
  - apply not_elem_of_cons in Hk as [Hne Hk].
    rewrite IH by exact Hk. now apply lookup_insert_ne.
Qed.

Lemma after_puts_present (puts : list (string * string)) (m : gmap string string)
    (k : string) :
  k ∈ puts.*1 → is_Some (after_puts puts m !! k).
Proof.
  revert m. induction puts as [|[k' v'] puts IH]; intros m Hk; simpl in *.
  - inversion Hk.
  - destruct (decide (k ∈ puts.*1)) as [Hin|Hnotin]; [now apply IH|].
    apply elem_of_cons in Hk as [->|Hk]; [|contradiction].
    rewrite after_puts_untouched by exact Hnotin.
    rewrite lookup_insert_eq. eauto.
Qed.

Section Snapshot.
Context `{MapRange}.

Lemma range_keys (m : gmap string string) (k : string) :
  k ∈ (range m).*1 ↔ is_Some (m !! k).
Proof.
  rewrite (range_visits_all m). rewrite list_elem_of_fmap. split.
  - intros ([k' v] & -> & Hin). apply elem_of_map_to_list in Hin. simpl. eauto.
  - intros [v Hv]. exists (k, v). split; [reflexivity|]. now apply elem_of_map_to_list.
Qed.

Lemma range_entry (m : gmap string string) (k v : string) :
  (k, v) ∈ range m ↔ m !! k = Some v.
Proof. rewrite (range_visits_all m). apply elem_of_map_to_list. Qed.

End Snapshot.

Section Mongo_session.
Context `{Msgpack} `{MapRange} (config : AnalyticsConfig).

Lemma mongo_PurgeCache_with_session (io : MongoPurger.Cycle) (m : MongoPurger.receiver)
    (w : World) :
  has_session m io = true →
  ∃ (m' : MongoPurger.receiver) (w' : World) (t : list Event),
    MongoPurger.PurgeCache config io m w = (Returned m', w') ∧
    is_Some (MongoPurger.dbSession m') ∧
    trace w' = trace w ++ t ∧
    stack w' = stack w ∧
    snapshots t = [tt] ∧
    dials t =
      match MongoPurger.dbSession m with Some _ => [] | None => [MongoURL config] end ∧
    store_writes t = [] ∧
    inserted_batches t =
      (if decide (0 < size (redis w))%nat then [decoded_slots (range (redis w))] else []) ∧
    (∀ k v, (k, v) ∈ range (redis w) → decodes v = false →
       Msg "Couldn't unmarshal analytics data:" ∈ logged_errors t) ∧
    match bulk_insert_error io (redis w) with
    | None =>
        redis w' =
          RedisStorageManager.delete_all (range (redis w)).*1
            (after_puts (MongoPurger.recorded_meanwhile io) (redis w)) ∧
        deleted_keys t = (range (redis w)).*1
    | Some e =>
        redis w' = after_puts (MongoPurger.recorded_meanwhile io) (redis w) ∧
        deleted_keys t = [] ∧
        Msg "Problem inserting to mongo collection" ∈ logged_errors t ∧
        Err e ∈ logged_errors t
    end.
Proof.
  unfold has_session, MongoPurger.PurgeCache. intros Hs.
  destruct (MongoPurger.dbSession m) as [s|] eqn:Hm.
  - destruct (mongo_PurgeCache_connected config (MongoPurger.Dial_results io) io m s w Hm)
      as (w' & t & Hrun & Ht & Hst & Hsnap & Hdial & Hset & Hins & Hlog & Hend).
    exists m, w', t. rewrite Hm. repeat split; eauto.
  - destruct (MongoPurger.Dial_results io) as [|[[s|] [e|]] ds]; try discriminate.
    rewrite mongo_PurgeCache_connects by (exact Hm || reflexivity). simpl.
    set (w1 := extend w _).
    destruct (mongo_PurgeCache_connected config ds io
                {| MongoPurger.dbSession := Some s |} s w1 eq_refl)
      as (w' & t & Hrun & Ht & Hst & Hsnap & Hdial & Hset & Hins & Hlog & Hend).
    exists {| MongoPurger.dbSession := Some s |}, w',
      ([EvLog InfoLevel (Msg "Not connected to analytics store, connecting...");
        EvDial (MongoURL config)] ++ t).
    subst w1. simpl in *.
    split; [exact Hrun|]. split; [eauto|].
    split; [rewrite Ht; now rewrite <- app_assoc|].
    split; [exact Hst|].
    split; [observe; now rewrite Hsnap|].
    split; [observe; now rewrite Hdial|].
    split; [observe; now rewrite Hset|].
    split; [observe; now rewrite Hins|].
    split; [intros k v Hin Hbad; observe; simpl; eauto|].
    destruct (bulk_insert_error io (redis w)) as [e|].
    + destruct Hend as (Hr & Hd & Hl1 & Hl2).
      repeat split; try assumption; observe; simpl; assumption.
    + destruct Hend as (Hr & Hd). split; [exact Hr|]. observe. simpl. exact Hd.
Qed.

End Mongo_session.

Section Mongo_any_dial.
Context `{Msgpack} `{MapRange} (config : AnalyticsConfig).

Lemma mongo_PurgeCache_waits_for_dial (io : MongoPurger.Cycle) (m : MongoPurger.receiver)
    (w : World) :
  MongoPurger.dbSession m = None →
  MongoPurger.PurgeCache_from config [] io m w =
    (StillRunning,
     extend w [EvLog InfoLevel (Msg "Not connected to analytics store, connecting...")]).
Proof. intros Hm. simpl. rewrite Hm. exec. reflexivity. Qed.

Lemma mongo_PurgeCache_deletes_snapshot_only (io : MongoPurger.Cycle)
    (ds : list (option Session * option error)) :
  ∀ (m : MongoPurger.receiver) (w : World),
  ∃ t : list Event,
    trace (MongoPurger.PurgeCache_from config ds io m w).2 = trace w ++ t ∧
    ∀ k, k ∈ deleted_keys t → is_Some (redis w !! k).
Proof.
  induction ds as [|d ds IH]; intros m w;
    destruct (MongoPurger.dbSession m) as [s|] eqn:Hm.
  - destruct (mongo_PurgeCache_connected config [] io m s w Hm)
      as (w' & t & Hrun & Ht & _ & _ & _ & _ & _ & _ & Hend).
    exists t. rewrite Hrun. split; [exact Ht|]. intros k Hk.
    destruct (bulk_insert_error io (redis w)).
    + destruct Hend as (_ & Hd & _). rewrite Hd in Hk. inversion Hk.
    + destruct Hend as (_ & Hd). rewrite Hd in Hk. now apply range_keys.
  - rewrite mongo_PurgeCache_waits_for_dial by exact Hm.
    eexists. split; [reflexivity|]. intros k Hk. inversion Hk.
  - destruct (mongo_PurgeCache_connected config (d :: ds) io m s w Hm)
      as (w' & t & Hrun & Ht & _ & _ & _ & _ & _ & _ & Hend).
    exists t. rewrite Hrun. split; [exact Ht|]. intros k Hk.
    destruct (bulk_insert_error io (redis w)).
    + destruct Hend as (_ & Hd & _). rewrite Hd in Hk. inversion Hk.
    + destruct Hend as (_ & Hd). rewrite Hd in Hk. now apply range_keys.
  - destruct d.2 as [e|] eqn:Hd.
    + rewrite (mongo_PurgeCache_dial_fails config d ds io m e w Hm Hd).
      eexists. split; [reflexivity|]. intros k Hk. inversion Hk.
    + rewrite (mongo_PurgeCache_connects config d ds io m w Hm Hd).
      destruct (IH {| MongoPurger.dbSession := d.1 |}
                  (extend w [EvLog InfoLevel (Msg "Not connected to analytics store, connecting...");
                             EvDial (MongoURL config)])) as (t & Ht & Hsub).
      eexists. split; [rewrite Ht; simpl; rewrite <- app_assoc; reflexivity|].
      intros k Hk. observe. simpl in Hk. now apply Hsub.
Qed.
End Mongo_any_dial.

(** ** Claims about a drain cycle *)

(** C1. Two flat-file cycles over three staged records whose batch write
    fails. In the first [os.Create] fails; in the second the file is
    created and every [Write] goes into the buffer, but the file refuses the
    buffer on [Flush]. The code drops the first error and never asks for
    the second: nothing is persisted (no file in the first cycle, an empty
    one in the second), and yet [DeleteKeys] is called with all three keys
    and the store is left empty. The document-store cycle on the same store
    keeps every entry when its insert fails. *)
Theorem csv_deletes_what_it_did_not_persist :
  let no_file :=
    (@CSVPurger.PurgeCache Sample.codec Sample.in_order Sample.config Scenario.csv_no_file
       Sample.staged3).2 in
  let no_flush :=
    (@CSVPurger.PurgeCache Sample.codec Sample.in_order Sample.config Scenario.csv_flush_fails
       Sample.staged3).2 in
  let no_insert :=
    (@MongoPurger.PurgeCache Sample.codec Sample.in_order Sample.config
       Scenario.mongo_quiet_failure Sample.connected Sample.staged3).2 in
  size (redis Sample.staged3) = 3%nat ∧
  (map_to_list (files no_file) = [] ∧
   delete_calls (trace no_file) = [["c"; "a"; "b"]] ∧
   map_to_list (redis no_file) = []) ∧
  (map_to_list (files no_flush) = [("/tmp/csv2014-March-1-12-0.csv", [])] ∧
   delete_calls (trace no_flush) = [["c"; "a"; "b"]] ∧
   map_to_list (redis no_flush) = []) ∧
  (delete_calls (trace no_insert) = [] ∧
   map_to_list (redis no_insert) = map_to_list (redis Sample.staged3)).
Proof. vm_compute. repeat split. Qed.

(** C3. Whatever the environment answers, every key a drain cycle deletes
    is a key of the snapshot it read. A key that was not in the snapshot and
    that a recorder writes after the snapshot was taken is in the store when
    the cycle completes, with the value last written for it, whether the
    sink write succeeds or fails. *)
Theorem drain_deletes_snapshot_keys_only `{Msgpack} `{MapRange} (config : AnalyticsConfig)
    (flat_io : CSVPurger.Cycle) (docs_io : MongoPurger.Cycle) (m : MongoPurger.receiver)
    (w : World) :
  let flat := (CSVPurger.PurgeCache config flat_io w).2 in
  let docs := (MongoPurger.PurgeCache config docs_io m w).2 in
  (∀ k, k ∈ deleted_keys (since w flat) → is_Some (redis w !! k)) ∧
  (∀ k, k ∈ deleted_keys (since w docs) → is_Some (redis w !! k)) ∧
  (CSVPurger.Write_result flat_io 0%nat = None →
     ∀ k, k ∈ (CSVPurger.recorded_meanwhile flat_io).*1 → redis w !! k = None →
       is_Some (redis flat !! k) ∧
       redis flat !! k = after_puts (CSVPurger.recorded_meanwhile flat_io) (redis w) !! k) ∧
  (has_session m docs_io = true →
     ∀ k, k ∈ (MongoPurger.recorded_meanwhile docs_io).*1 → redis w !! k = None →
       is_Some (redis docs !! k) ∧
       redis docs !! k = after_puts (MongoPurger.recorded_meanwhile docs_io) (redis w) !! k).
Proof.
  intros flat docs. subst flat docs. split; [|split; [|split]].
  - intros k. destruct (CSVPurger.Write_result flat_io 0%nat) as [e|] eqn:He.
    + destruct (csv_PurgeCache_header_failed config flat_io w e He)
        as (w' & t & Hrun & Ht & _ & _ & Hdel & _).
      rewrite Hrun. simpl. rewrite (since_app _ _ _ Ht), Hdel. intros Hk. inversion Hk.
    + destruct (csv_PurgeCache_header_written config flat_io w He)
        as (w' & t & Hrun & Ht & _ & _ & Hdel & _).
      rewrite Hrun. simpl. rewrite (since_app _ _ _ Ht), Hdel. apply range_keys.
  - intros k. unfold MongoPurger.PurgeCache.
    destruct (mongo_PurgeCache_deletes_snapshot_only config docs_io
                (MongoPurger.Dial_results docs_io) m w) as (t & Ht & Hsub).
    rewrite (since_app _ _ _ Ht). apply Hsub.
  - intros Hhdr k Hk Hnew.
    destruct (csv_PurgeCache_header_written config flat_io w Hhdr)
      as (w' & t & Hrun & _ & _ & Hredis & _).
    rewrite Hrun. simpl. rewrite Hredis, delete_all_lookup.
    rewrite decide_False.
    + split; [now apply after_puts_present | reflexivity].
    + rewrite range_keys, Hnew. intros [v Hv]. discriminate.
  - intros Hs k Hk Hnew.
    destruct (mongo_PurgeCache_with_session config docs_io m w Hs)
      as (m' & w' & t & Hrun & _ & _ & _ & _ & _ & _ & _ & _ & Hend).
    rewrite Hrun. simpl.
    destruct (bulk_insert_error docs_io (redis w)) as [e|].
    + destruct Hend as (Hredis & _). rewrite Hredis.
      split; [now apply after_puts_present | reflexivity].
    + destruct Hend as (Hredis & _). rewrite Hredis, delete_all_lookup.
      rewrite decide_False.
      * split; [now apply after_puts_present | reflexivity].
      * rewrite range_keys, Hnew. intros [v Hv]. discriminate.
Qed.

Lemma drain_deletes_snapshot_keys_only_witness :
  redis (@CSVPurger.PurgeCache Sample.codec Sample.in_order Sample.config Sample.csv_ok
           Sample.staged).2 !! "z" = Some "r/late" ∧
  redis (@MongoPurger.PurgeCache Sample.codec Sample.in_order Sample.config
           Sample.mongo_insert_fails Sample.unconnected Sample.staged).2 !! "z" = Some "r/late".
Proof.
  pose proof (@drain_deletes_snapshot_keys_only Sample.codec Sample.in_order Sample.config
                Sample.csv_ok Sample.mongo_insert_fails Sample.unconnected Sample.staged)
    as (_ & _ & Hflat & Hdocs).
  split.
  - destruct (Hflat eq_refl "z") as [_ Heq]; [apply list_elem_of_here | reflexivity |].
    rewrite Heq. reflexivity.
  - destruct (Hdocs eq_refl "z") as [_ Heq]; [apply list_elem_of_here | reflexivity |].
    rewrite Heq. reflexivity.
Defined.

Section Batches.
Context `{Msgpack}.

Lemma decoded_rows_all (entries : list (string * string)) :
  (∀ k v, (k, v) ∈ entries → decodes v = true) →
  decoded_rows entries = map (λ kv, CSVPurger.toWrite (Unmarshal kv.2).1) entries.
Proof.
  induction entries as [|[k v] rest IH]; intros Hall; [reflexivity|].
  rewrite decoded_rows_keep by (apply (Hall k); apply list_elem_of_here).
  simpl. f_equal. apply IH. intros k' v' Hin. apply (Hall k'). now apply list_elem_of_further.
Qed.

Lemma decoded_slots_length (entries : list (string * string)) :
  length (decoded_slots entries) = length entries.
Proof. unfold decoded_slots. apply length_map. Qed.

(** The batch of a document-store cycle has one slot per snapshot entry, and
    a nil slot for every entry that does not decode. *)
Lemma mongo_batch_is_slot_per_entry `{MapRange} (config : AnalyticsConfig)
    (io : MongoPurger.Cycle) (m : MongoPurger.receiver) (w : World) :
  has_session m io = true →
  (0 < size (redis w))%nat →
  inserted_batches (since w (MongoPurger.PurgeCache config io m w).2) =
    [decoded_slots (range (redis w))] ∧
  length (decoded_slots (range (redis w))) = size (redis w) ∧
  ∀ k v, redis w !! k = Some v → decodes v = false →
         None ∈ decoded_slots (range (redis w)).
Proof.
  intros Hs Hpos.
  destruct (mongo_PurgeCache_with_session config io m w Hs)
    as (m' & w' & t & Hrun & _ & Ht & _ & _ & _ & _ & Hins & _).
  rewrite Hrun. simpl. rewrite (since_app _ _ _ Ht), Hins.
  rewrite decide_True by exact Hpos. split; [reflexivity|].
  split; [rewrite decoded_slots_length; apply range_length|].
  intros k v Hv Hbad. apply range_entry in Hv.
  unfold decoded_slots. apply list_elem_of_fmap. exists (k, v). simpl.
  now rewrite Hbad.
Qed.

(** The rows of a flat-file cycle are the header row and one row per entry
    that decodes. *)
Lemma csv_batch_is_row_per_decoded_entry `{MapRange} (config : AnalyticsConfig)
    (io : CSVPurger.Cycle) (w : World) :
  CSVPurger.Write_result io 0%nat = None →
  written_rows (since w (CSVPurger.PurgeCache config io w).2) =
    CSVPurger.headers :: decoded_rows (range (redis w)).
Proof.
  intros Hhdr.
  destruct (csv_PurgeCache_header_written config io w Hhdr)
    as (w' & t & Hrun & Ht & _ & _ & _ & _ & Hrows & _).
  rewrite Hrun. simpl. now rewrite (since_app _ _ _ Ht).
Qed.

(** The file name is the configured directory string, as it is, followed by
    the name made of the clock's fields. *)
Lemma csv_fname_is_dir_then_name (config : AnalyticsConfig) (curtime : Time) :
  CSVPurger.fname config curtime =
    CSVDir config +:+
    (Fmt.Itoa (t_Year curtime) +:+ "-" +:+ Fmt.Month_String (t_Month curtime) +:+ "-" +:+
     Fmt.Itoa (t_Day curtime) +:+ "-" +:+ Fmt.Itoa (t_Hour curtime) +:+ "-" +:+
     Fmt.Itoa (t_Minute curtime) +:+ ".csv").
Proof. reflexivity. Qed.

End Batches.

(** C5. The batch of a drain cycle against one staged value that does not
    decode. No record decodes, yet the document-store cycle hands [Insert] a
    batch of one nil document: the slice is allocated with one slot per
    snapshot entry and the slot of an entry that fails to decode stays nil.
    The key is still deleted. The flat-file cycle on the same store writes
    the header row and no row for the entry. *)
Theorem mongo_batch_keeps_a_nil_slot :
  let run :=
    @MongoPurger.PurgeCache Sample.codec Sample.in_order Sample.config Sample.mongo_ok
      Sample.connected Sample.staged_junk in
  @decoded_records Sample.codec (map_to_list (redis Sample.staged_junk)) = [] ∧
  inserted_batches (trace run.2) = [[None]] ∧
  deleted_keys (trace run.2) = ["k"] ∧
  written_rows (trace (@CSVPurger.PurgeCache Sample.codec Sample.in_order Sample.config
                         Sample.csv_ok Sample.staged_junk).2) = [CSVPurger.headers].
Proof. vm_compute. repeat split. Qed.

(** C6, as amended. A flat-file drain cycle in which the file is created,
    no [Write] and not the [Flush] meets an error of the file, and every
    snapshot value decodes leaves at its path a file that starts with the
    header row
    METHOD,PATH,SIZE,UA,DAY,MONTH,YEAR,HOUR,RESPONSE,APINAME,APIVERSION and
    continues with exactly one row per snapshot entry (in the order the map
    was iterated); the columns of a row are the decoded record's method,
    path, content length, user agent, day, month name, year, hour, response
    code, API name and API version, in that order. *)
Theorem csv_file_is_header_then_one_row_per_record `{Msgpack} `{MapRange}
    (config : AnalyticsConfig) (io : CSVPurger.Cycle) (w : World) :
  CSVPurger.Create_result io = None →
  (∀ n, CSVPurger.Write_result io n = None) →
  CSVPurger.Flush_result io = None →
  (∀ k v, redis w !! k = Some v → decodes v = true) →
  ∃ rows : list (list string),
    files (CSVPurger.PurgeCache config io w).2 !! CSVPurger.fname config (CSVPurger.Now io) =
      Some (CSVPurger.headers :: rows) ∧
    Fmt.csv_line CSVPurger.headers =
      "METHOD,PATH,SIZE,UA,DAY,MONTH,YEAR,HOUR,RESPONSE,APINAME,APIVERSION" ∧
    rows ≡ₚ map (λ kv, CSVPurger.toWrite (Unmarshal kv.2).1) (map_to_list (redis w)) ∧
    length rows = size (redis w) ∧
    ∀ r, CSVPurger.toWrite r =
      [Method r; Path r; Fmt.Itoa (ContentLength r); UserAgent r; Fmt.Itoa (Day r);
       Fmt.Month_String (Month r); Fmt.Itoa (Year r); Fmt.Itoa (Hour r);
       Fmt.Itoa (ResponseCode r); APIName r; APIVersion r].
Proof.
  intros Hcreate Hwrite Hflush Hdecode.
  destruct (csv_PurgeCache_header_written config io w (Hwrite 0%nat))
    as (w' & t & Hrun & _ & _ & _ & _ & _ & _ & _ & Hfiles & _).
  exists (decoded_rows (range (redis w))). rewrite Hrun. simpl.
  rewrite (Hfiles Hcreate Hwrite Hflush), lookup_insert_eq.
  assert (decoded_rows (range (redis w)) =
          map (λ kv, CSVPurger.toWrite (Unmarshal kv.2).1) (range (redis w))) as Hrows.
  { apply decoded_rows_all. intros k v Hin. apply (Hdecode k). now apply range_entry. }
  split; [reflexivity|]. split; [reflexivity|]. rewrite Hrows.
  split; [|split; [|reflexivity]].
  - now rewrite (range_visits_all (redis w)).
  - rewrite length_map. apply range_length.
Qed.

Lemma csv_file_is_header_then_one_row_per_record_witness :
  ∃ rows : list (list string),
    files (@CSVPurger.PurgeCache Sample.codec Sample.in_order Sample.config Sample.csv_ok
             Sample.staged3).2 !! "/tmp/csv2014-March-1-12-0.csv" =
      Some (CSVPurger.headers :: rows) ∧
    length rows = 3%nat ∧
    rows ≡ₚ
      [["GET"; "/orders"; "0"; "curl/7.30"; "5"; "March"; "2014"; "7"; "200"; "users"; "v1"];
       ["GET"; "/users"; "0"; "curl/7.30"; "5"; "March"; "2014"; "7"; "200"; "users"; "v1"];
       ["GET"; "/carts"; "0"; "curl/7.30"; "5"; "March"; "2014"; "7"; "200"; "users"; "v1"]].
Proof.
  destruct (@csv_file_is_header_then_one_row_per_record Sample.codec Sample.in_order
              Sample.config Sample.csv_ok Sample.staged3)
    as (rows & Hfile & _ & Hrows & Hlen & _).
  - reflexivity.
  - intros n. reflexivity.
  - reflexivity.
  - intros k v Hv. apply (@range_entry Sample.in_order) in Hv.
    vm_compute in Hv.
    repeat (apply elem_of_cons in Hv as [Hv|Hv]; [injection Hv as -> ->; reflexivity|]).
    inversion Hv.
  - exists rows. split; [exact Hfile|]. split; [exact Hlen | exact Hrows].
Defined.

(** C6, as stated, fails: all three staged values decode, the file is
    created and every [Write] returns nil, but the file refuses the buffer
    on [Flush]; the file the cycle leaves behind is empty and holds neither
    the header row nor a row of a record. *)
Lemma csv_file_can_stay_empty :
  let run :=
    @CSVPurger.PurgeCache Sample.codec Sample.in_order Sample.config Scenario.csv_flush_fails
      Sample.staged3 in
  Forall (λ kv, @decodes Sample.codec kv.2 = true) (map_to_list (redis Sample.staged3)) ∧
  written_rows (trace run.2) =
    [CSVPurger.headers; @CSVPurger.toWrite (Sample.hit "/orders" 0);
     @CSVPurger.toWrite (Sample.hit "/users" 0); @CSVPurger.toWrite (Sample.hit "/carts" 0)] ∧
  files run.2 !! "/tmp/csv2014-March-1-12-0.csv" = Some [] ∧
  ¬ ∃ rows, files run.2 !! CSVPurger.fname Sample.config Sample.noon =
              Some (CSVPurger.headers :: rows).
Proof.
  vm_compute. split; [repeat constructor|]. split; [reflexivity|]. split; [reflexivity|].
  intros [rows Hrows]. discriminate.
Qed.

(** C7. The flat-file cycle with the output directory configured as
    /tmp/csv: the directory /tmp/csv is created, but the file name is the
    directory string immediately followed by year-monthName-day-hour-minute
    and .csv, with no path separator in between, so the file is
    /tmp/csv2014-March-1-12-0.csv, next to the directory and not inside
    it. *)
Theorem csv_file_lands_beside_the_directory :
  let run :=
    @CSVPurger.PurgeCache Sample.codec Sample.in_order Sample.config Sample.csv_ok
      Sample.staged3 in
  CSVDir Sample.config = "/tmp/csv" ∧
  CSVPurger.fname Sample.config Sample.noon = "/tmp/csv2014-March-1-12-0.csv" ∧
  CSVPurger.fname Sample.config Sample.noon ≠ "/tmp/csv/2014-March-1-12-0.csv" ∧
  elements (dirs run.2) = ["/tmp/csv"] ∧
  (map_to_list (files run.2)).*1 = ["/tmp/csv2014-March-1-12-0.csv"].
Proof. vm_compute. repeat split. discriminate. Qed.

(** C9. The document-store purger dials only when it holds no session. A
    cycle that starts without one dials once, keeps the session and then
    runs the drain once (one snapshot). When dialling returns an error the
    cycle logs it and panics: nothing is returned to the caller, the store
    is untouched, and [StartPurgeLoop] ends with the same panic. A failed
    bulk insert is not a panic: the cycle returns, the failure is logged and
    no key is deleted. *)
Theorem mongo_connects_on_first_use_and_panics_on_dial_error `{Msgpack} `{MapRange}
    (config : AnalyticsConfig) (io : MongoPurger.Cycle) (m : MongoPurger.receiver)
    (w : World) :
  let run := MongoPurger.PurgeCache config io m w in
  (is_Some (MongoPurger.dbSession m) →
     run.1 = Returned m ∧ dials (since w run.2) = [] ∧ snapshots (since w run.2) = [tt]) ∧
  (MongoPurger.dbSession m = None →
     ∀ s ds, MongoPurger.Dial_results io = (Some s, None) :: ds →
       run.1 = Returned {| MongoPurger.dbSession := Some s |} ∧
       dials (since w run.2) = [MongoURL config] ∧
       snapshots (since w run.2) = [tt] ∧
       run =
         MongoPurger.PurgeCache_from config ds io {| MongoPurger.dbSession := Some s |}
           (extend w [EvLog InfoLevel (Msg "Not connected to analytics store, connecting...");
                      EvDial (MongoURL config)])) ∧
  (MongoPurger.dbSession m = None →
     ∀ s e ds, MongoPurger.Dial_results io = (s, Some e) :: ds →
       run.1 = Panicked (LogPanic e) ∧
       redis run.2 = redis w ∧
       since w run.2 =
         [EvLog InfoLevel (Msg "Not connected to analytics store, connecting...");
          EvDial (MongoURL config);
          EvLog ErrorLevel (Msg "Mongo connection failed:");
          EvLog PanicLevel (Err e)] ∧
       ∀ later n w0,
         (MongoPurger.StartPurgeLoop config (io :: later) m n w0).1 = Panicked (LogPanic e)) ∧
  (has_session m io = true →
     ∀ e, bulk_insert_error io (redis w) = Some e →
       (∃ m', run.1 = Returned m') ∧
       Msg "Problem inserting to mongo collection" ∈ logged_errors (since w run.2) ∧
       Err e ∈ logged_errors (since w run.2) ∧
       deleted_keys (since w run.2) = []).
Proof.
  intros run. subst run. split; [|split; [|split]].
  - intros [s Hm]. unfold MongoPurger.PurgeCache.
    destruct (mongo_PurgeCache_connected config (MongoPurger.Dial_results io) io m s w Hm)
      as (w' & t & Hrun & Ht & _ & Hsnap & Hdial & _).
    rewrite Hrun. simpl. rewrite (since_app _ _ _ Ht). auto.
  - intros Hm s ds Hds.
    assert (has_session m io = true) as Hs by (unfold has_session; now rewrite Hm, Hds).
    destruct (mongo_PurgeCache_with_session config io m w Hs)
      as (m' & w' & t & Hrun & _ & Ht & _ & Hsnap & Hdial & _).
    assert (MongoPurger.PurgeCache config io m w =
            MongoPurger.PurgeCache_from config ds io {| MongoPurger.dbSession := Some s |}
              (extend w [EvLog InfoLevel (Msg "Not connected to analytics store, connecting...");
                         EvDial (MongoURL config)])) as Hstep.
    { unfold MongoPurger.PurgeCache. rewrite Hds.
      now rewrite mongo_PurgeCache_connects by (exact Hm || reflexivity). }
    split; [|split; [|split; [|exact Hstep]]].
    + rewrite Hstep.
      destruct (mongo_PurgeCache_connected config ds io
                  {| MongoPurger.dbSession := Some s |} s
                  (extend w [EvLog InfoLevel (Msg "Not connected to analytics store, connecting...");
                             EvDial (MongoURL config)]) eq_refl) as (w2 & t2 & Hrun2 & _).
      now rewrite Hrun2.
    + rewrite Hrun. simpl. rewrite (since_app _ _ _ Ht), Hdial. now rewrite Hm.
    + rewrite Hrun. simpl. now rewrite (since_app _ _ _ Ht).
  - intros Hm s e ds Hds.
    assert (MongoPurger.PurgeCache config io m w =
            (Panicked (LogPanic e),
             extend w [EvLog InfoLevel (Msg "Not connected to analytics store, connecting...");
                       EvDial (MongoURL config);
                       EvLog ErrorLevel (Msg "Mongo connection failed:");
                       EvLog PanicLevel (Err e)])) as Hrun.
    { unfold MongoPurger.PurgeCache. rewrite Hds.
      now apply mongo_PurgeCache_dial_fails. }
    rewrite Hrun. simpl. split; [reflexivity|]. split; [reflexivity|].
    split; [now apply since_app|].
    intros later n w0. simpl. exec.
    unfold MongoPurger.PurgeCache. rewrite Hds.
    rewrite (mongo_PurgeCache_dial_fails config (s, Some e) ds io m e) by (exact Hm || reflexivity).
    reflexivity.
  - intros Hs e He.
    destruct (mongo_PurgeCache_with_session config io m w Hs)
      as (m' & w' & t & Hrun & _ & Ht & _ & _ & _ & _ & _ & _ & Hend).
    rewrite He in Hend. destruct Hend as (_ & Hdel & Hl1 & Hl2).
    rewrite Hrun. simpl. rewrite (since_app _ _ _ Ht). eauto.
Qed.

Lemma mongo_connects_on_first_use_and_panics_on_dial_error_witness :
  (@MongoPurger.PurgeCache Sample.codec Sample.in_order Sample.config Sample.mongo_ok
     Sample.unconnected Sample.staged).1 = Returned Sample.connected ∧
  (@MongoPurger.PurgeCache Sample.codec Sample.in_order Sample.config Sample.mongo_unreachable
     Sample.unconnected Sample.staged).1 =
    Panicked (LogPanic (ForeignError "no reachable servers")) ∧
  deleted_keys
    (since Sample.staged
       (@MongoPurger.PurgeCache Sample.codec Sample.in_order Sample.config
          Sample.mongo_insert_fails Sample.connected Sample.staged).2) = [].
Proof.
  split; [|split].
  - eapply (@mongo_connects_on_first_use_and_panics_on_dial_error Sample.codec
              Sample.in_order Sample.config Sample.mongo_ok Sample.unconnected Sample.staged);
      reflexivity.
  - eapply (@mongo_connects_on_first_use_and_panics_on_dial_error Sample.codec
              Sample.in_order Sample.config Sample.mongo_unreachable Sample.unconnected
              Sample.staged); reflexivity.
  - eapply (@mongo_connects_on_first_use_and_panics_on_dial_error Sample.codec
              Sample.in_order Sample.config Sample.mongo_insert_fails Sample.connected
              Sample.staged); reflexivity.
Defined.

Arguments CSVPurger.PurgeCache : simpl never.
Arguments MongoPurger.PurgeCache : simpl never.

(** ** The purge loops *)

Section Loops.
Context `{Msgpack} `{MapRange} (config : AnalyticsConfig).

Lemma csv_PurgeCache_returns (io : CSVPurger.Cycle) (w : World) :
  ∃ w', CSVPurger.PurgeCache config io w = (Returned tt, w') ∧ stack w' = stack w.
Proof.
  destruct (CSVPurger.Write_result io 0%nat) as [e|] eqn:He.
  - destruct (csv_PurgeCache_header_failed config io w e He) as (w' & t & Hrun & _ & Hst & _).
    eauto.
  - destruct (csv_PurgeCache_header_written config io w He) as (w' & t & Hrun & _ & Hst & _).
    eauto.
Qed.

Lemma csv_StartPurgeLoop_nests (cycles : list CSVPurger.Cycle) (n : Z) :
  ∀ w, ∃ w',
    CSVPurger.StartPurgeLoop config cycles n w = (StillRunning, w') ∧
    stack w' =
      replicate (S (length cycles)) {| method := "CSVPurger.StartPurgeLoop"; nextCount := n |}
      ++ stack w.
Proof.
  induction cycles as [|io later IH]; intros w; simpl; exec.
  - eexists. split; reflexivity.
  - match goal with
    | |- context [CSVPurger.PurgeCache config io ?w1] =>
        destruct (csv_PurgeCache_returns io w1) as (w2 & Hrun & Hst)
    end.
    rewrite Hrun. destruct (IH w2) as (w3 & Hloop & Hst3). rewrite Hloop.
    exists w3. split; [reflexivity|]. rewrite Hst3, Hst. simpl.
    change ({| method := "CSVPurger.StartPurgeLoop"; nextCount := n |} :: stack w)
      with ([{| method := "CSVPurger.StartPurgeLoop"; nextCount := n |}] ++ stack w).
    rewrite app_assoc. f_equal.
    change ({| method := "CSVPurger.StartPurgeLoop"; nextCount := n |}
            :: replicate (length later) {| method := "CSVPurger.StartPurgeLoop"; nextCount := n |})
      with (replicate (S (length later)) {| method := "CSVPurger.StartPurgeLoop"; nextCount := n |}).
    rewrite <- replicate_S_end. reflexivity.
Qed.

Lemma mongo_StartPurgeLoop_nests (cycles : list MongoPurger.Cycle) (n : Z) :
  ∀ (m : MongoPurger.receiver) (w : World),
  is_Some (MongoPurger.dbSession m) →
  ∃ w',
    MongoPurger.StartPurgeLoop config cycles m n w = (StillRunning, w') ∧
    stack w' =
      replicate (S (length cycles)) {| method := "MongoPurger.StartPurgeLoop"; nextCount := n |}
      ++ stack w.
Proof.
  induction cycles as [|io later IH]; intros m w [s Hm]; simpl; exec.
  - eexists. split; reflexivity.
  - unfold MongoPurger.PurgeCache.
    match goal with
    | |- context [MongoPurger.PurgeCache_from config ?ds io m ?w1] =>
        destruct (mongo_PurgeCache_connected config ds io m s w1 Hm)
          as (w2 & t & Hrun & _ & Hst & _)
    end.
    rewrite Hrun. destruct (IH m w2 (ex_intro _ s Hm)) as (w3 & Hloop & Hst3). rewrite Hloop.
    exists w3. split; [reflexivity|]. rewrite Hst3, Hst. simpl.
    change ({| method := "MongoPurger.StartPurgeLoop"; nextCount := n |} :: stack w)
      with ([{| method := "MongoPurger.StartPurgeLoop"; nextCount := n |}] ++ stack w).
    rewrite app_assoc. f_equal.
    change ({| method := "MongoPurger.StartPurgeLoop"; nextCount := n |}
            :: replicate (length later) {| method := "MongoPurger.StartPurgeLoop"; nextCount := n |})
      with (replicate (S (length later)) {| method := "MongoPurger.StartPurgeLoop"; nextCount := n |}).
    rewrite <- replicate_S_end. reflexivity.
Qed.

Lemma mongo_StartPurgeLoop_never_returns (cycles : list MongoPurger.Cycle) (n : Z) :
  ∀ (m : MongoPurger.receiver) (w : World),
  (MongoPurger.StartPurgeLoop config cycles m n w).1 ≠ Returned tt.
Proof.
  induction cycles as [|io later IH]; intros m w; simpl; exec.
  - discriminate.
  - match goal with
    | |- context [MongoPurger.PurgeCache config io m ?w1] =>
        destruct (MongoPurger.PurgeCache config io m w1) as [[m'|p|] w2]
    end; try discriminate.
    specialize (IH m' w2).
    destruct (MongoPurger.StartPurgeLoop config later m' n w2) as [[[]|p|] w3];
      simpl in *; congruence.
Qed.

(** One call of the flat-file loop: asleep, then a drain cycle, then the
    next call. *)
Lemma csv_StartPurgeLoop_step (io : CSVPurger.Cycle) (later : list CSVPurger.Cycle) (n : Z)
    (w : World) :
  ∃ w2,
    CSVPurger.PurgeCache config io
      (asleep {| method := "CSVPurger.StartPurgeLoop"; nextCount := n |} w) = (Returned tt, w2) ∧
    CSVPurger.StartPurgeLoop config (io :: later) n w =
      CSVPurger.StartPurgeLoop config later n w2.
Proof.
  destruct (csv_PurgeCache_returns io
              (asleep {| method := "CSVPurger.StartPurgeLoop"; nextCount := n |} w))
    as (w2 & Hrun & _).
  exists w2. split; [exact Hrun|].
  destruct (csv_StartPurgeLoop_nests later n w2) as (w3 & Hloop & _). rewrite Hloop.
  unfold asleep in Hrun. simpl in Hrun. simpl. exec. rewrite Hrun, Hloop. reflexivity.
Qed.

(** One call of the document-store loop, likewise; the next call gets the
    copy of the purger the cycle worked on. *)
Lemma mongo_StartPurgeLoop_step (io : MongoPurger.Cycle) (later : list MongoPurger.Cycle)
    (m : MongoPurger.receiver) (n : Z) (w : World) :
  has_session m io = true →
  ∃ m' w2,
    MongoPurger.PurgeCache config io m
      (asleep {| method := "MongoPurger.StartPurgeLoop"; nextCount := n |} w) =
      (Returned m', w2) ∧
    is_Some (MongoPurger.dbSession m') ∧
    stack w2 = {| method := "MongoPurger.StartPurgeLoop"; nextCount := n |} :: stack w ∧
    MongoPurger.StartPurgeLoop config (io :: later) m n w =
      MongoPurger.StartPurgeLoop config later m' n w2.
Proof.
  intros Hs.
  destruct (mongo_PurgeCache_with_session config io m
              (asleep {| method := "MongoPurger.StartPurgeLoop"; nextCount := n |} w) Hs)
    as (m' & w2 & t & Hrun & Hm' & _ & Hst & _).
  exists m', w2. split; [exact Hrun|]. split; [exact Hm'|]. split; [exact Hst|].
  destruct (mongo_StartPurgeLoop_nests later n m' w2 Hm') as (w3 & Hloop & _). rewrite Hloop.
  unfold asleep in Hrun. simpl in Hrun. simpl. exec. rewrite Hrun, Hloop. reflexivity.
Qed.

(** The document-store loop nests as the flat-file loop does as soon as its
    first cycle has a session to work with. *)
Lemma mongo_StartPurgeLoop_drains (cycles : list MongoPurger.Cycle) (n : Z)
    (m : MongoPurger.receiver) (w : World) :
  can_drain m cycles = true →
  ∃ w',
    MongoPurger.StartPurgeLoop config cycles m n w = (StillRunning, w') ∧
    stack w' =
      replicate (S (length cycles)) {| method := "MongoPurger.StartPurgeLoop"; nextCount := n |}
      ++ stack w.
Proof.
  destruct cycles as [|io later]; intros Hs.
  - simpl. exec. eexists. split; reflexivity.
  - destruct (mongo_StartPurgeLoop_step io later m n w Hs)
      as (m' & w2 & _ & Hm' & Hst & Hstep).
    destruct (mongo_StartPurgeLoop_nests later n m' w2 Hm') as (w3 & Hloop & Hst3).
    exists w3. split; [now rewrite Hstep|]. rewrite Hst3, Hst.
    change ({| method := "MongoPurger.StartPurgeLoop"; nextCount := n |} :: stack w)
      with ([{| method := "MongoPurger.StartPurgeLoop"; nextCount := n |}] ++ stack w).
    rewrite app_assoc. f_equal.
    change (length (io :: later)) with (S (length later)).
    rewrite (replicate_S_end (S (length later))). reflexivity.
Qed.

End Loops.

(** C4, as amended. [StartPurgeLoop] is written as a call of itself, for
    both sinks: a call sleeps, runs one drain cycle and then is the next
    call of [StartPurgeLoop], made from inside it. No call ever returns, and
    after k cycles the k callers are still on the call stack beneath the
    call that is now asleep, k + 1 frames in all. For the document-store
    purger this holds when the purger holds a session or its first
    [mgo.Dial] hands one back; a dial that fails ends the loop in a panic
    instead. *)
Theorem StartPurgeLoop_nests_one_call_per_cycle `{Msgpack} `{MapRange}
    (config : AnalyticsConfig) (flat_cycles : list CSVPurger.Cycle)
    (docs_cycles : list MongoPurger.Cycle) (m : MongoPurger.receiver) (n : Z) (w : World) :
  let flat_frame := {| method := "CSVPurger.StartPurgeLoop"; nextCount := n |} in
  let docs_frame := {| method := "MongoPurger.StartPurgeLoop"; nextCount := n |} in
  let flat := CSVPurger.StartPurgeLoop config flat_cycles n w in
  let docs := MongoPurger.StartPurgeLoop config docs_cycles m n w in
  (flat.1 = StillRunning ∧
   stack flat.2 = replicate (S (length flat_cycles)) flat_frame ++ stack w) ∧
  (∀ io later, flat_cycles = io :: later →
     ∃ w2, CSVPurger.PurgeCache config io (asleep flat_frame w) = (Returned tt, w2) ∧
           flat = CSVPurger.StartPurgeLoop config later n w2) ∧
  docs.1 ≠ Returned tt ∧
  (can_drain m docs_cycles = true →
     docs.1 = StillRunning ∧
     stack docs.2 = replicate (S (length docs_cycles)) docs_frame ++ stack w) ∧
  (∀ io later, docs_cycles = io :: later → has_session m io = true →
     ∃ m' w2,
       MongoPurger.PurgeCache config io m (asleep docs_frame w) = (Returned m', w2) ∧
       docs = MongoPurger.StartPurgeLoop config later m' n w2).
Proof.
  intros flat_frame docs_frame flat docs. subst flat_frame docs_frame flat docs.
  split; [|split; [|split; [|split]]].
  - destruct (csv_StartPurgeLoop_nests config flat_cycles n w) as (w' & Hrun & Hst).
    rewrite Hrun. auto.
  - intros io later ->. apply csv_StartPurgeLoop_step.
  - apply mongo_StartPurgeLoop_never_returns.
  - intros Hm.
    destruct (mongo_StartPurgeLoop_drains config docs_cycles n m w Hm) as (w' & Hrun & Hst).
    rewrite Hrun. auto.
  - intros io later -> Hs.
    destruct (mongo_StartPurgeLoop_step config io later m n w Hs)
      as (m' & w2 & Hrun & _ & _ & Hstep).
    eauto.
Qed.

Lemma StartPurgeLoop_nests_one_call_per_cycle_witness :
  length (stack (@MongoPurger.StartPurgeLoop Sample.codec Sample.in_order Sample.config
                   [Sample.mongo_ok; Sample.mongo_insert_fails; Sample.mongo_ok]
                   Sample.unconnected 60 Sample.staged).2) = 4%nat ∧
  (@CSVPurger.StartPurgeLoop Sample.codec Sample.in_order Sample.config
     [Sample.csv_ok; Sample.csv_ok] 60 Sample.staged).1 = StillRunning ∧
  ∃ m' w2,
    MongoPurger.dbSession m' = Some Sample.session ∧
    @MongoPurger.StartPurgeLoop Sample.codec Sample.in_order Sample.config
      [Sample.mongo_ok; Sample.mongo_insert_fails; Sample.mongo_ok]
      Sample.unconnected 60 Sample.staged =
    @MongoPurger.StartPurgeLoop Sample.codec Sample.in_order Sample.config
      [Sample.mongo_insert_fails; Sample.mongo_ok] m' 60 w2.
Proof.
  pose proof (@StartPurgeLoop_nests_one_call_per_cycle Sample.codec Sample.in_order
                Sample.config [Sample.csv_ok; Sample.csv_ok]
                [Sample.mongo_ok; Sample.mongo_insert_fails; Sample.mongo_ok]
                Sample.unconnected 60 Sample.staged) as ((Hflat & _) & _ & _ & Hdocs & Hstep).
  split; [|split].
  - destruct (Hdocs eq_refl) as [_ Hst]. rewrite Hst. reflexivity.
  - exact Hflat.
  - destruct (Hstep Sample.mongo_ok [Sample.mongo_insert_fails; Sample.mongo_ok]
                eq_refl eq_refl) as (m' & w2 & Hrun & Hloop).
    exists m', w2. split; [|exact Hloop].
    vm_compute in Hrun. injection Hrun as <- _. reflexivity.
Defined.

(** C4, as stated, fails: the depth of the call stack is not the same for
    every number of cycles. After two cycles it is three frames, against one
    frame before the first cycle. *)
Lemma StartPurgeLoop_call_stack_grows :
  ¬ (∀ cycles : list CSVPurger.Cycle,
       length (stack (@CSVPurger.StartPurgeLoop Sample.codec Sample.in_order Sample.config
                        cycles 60 Sample.staged).2) =
       length (stack (@CSVPurger.StartPurgeLoop Sample.codec Sample.in_order Sample.config
                        [] 60 Sample.staged).2)) ∧
  ¬ (∀ cycles : list MongoPurger.Cycle,
       length (stack (@MongoPurger.StartPurgeLoop Sample.codec Sample.in_order Sample.config
                        cycles Sample.connected 60 Sample.staged).2) =
       length (stack (@MongoPurger.StartPurgeLoop Sample.codec Sample.in_order Sample.config
                        [] Sample.connected 60 Sample.staged).2)).
Proof.
  split.
  - intros Hflat. specialize (Hflat [Sample.csv_ok; Sample.csv_ok]).
    vm_compute in Hflat. discriminate.
  - intros Hdocs. specialize (Hdocs [Sample.mongo_ok; Sample.mongo_ok]).
    vm_compute in Hdocs. discriminate.
Qed.

(** * Further properties of the code *)

(** ** The sleep between two cycles *)

(** X1. [time.Duration(nextCount) * time.Second] is an [int64] product. For
    an interval of 0 to 9223372036 seconds the sleep lasts exactly that many
    seconds; from 9223372037 seconds on (up to 18446744073) the product wraps
    around and the duration handed to [time.Sleep] is negative. *)
Theorem Sleep_duration_wraps_past_292_years (nextCount : Z) (w : World) :
  (0 ≤ nextCount ≤ 9223372036 →
     time.Sleep nextCount w = (Returned tt, extend w [EvSleep (nextCount * 1000000000)])) ∧
  (9223372037 ≤ nextCount ≤ 18446744073 →
     ∃ d, time.Sleep nextCount w = (Returned tt, extend w [EvSleep d]) ∧
          d = nextCount * 1000000000 - 2 ^ 64 ∧ d < 0).
Proof.
  unfold time.Sleep, time.wrap64, time.Second. split; intros Hn.
  - rewrite Z.mod_small by lia. exec. unfold extend. do 5 f_equal. lia.
  - exists (nextCount * 1000000000 - 2 ^ 64). split; [|lia].
    replace (nextCount * 1000000000 + 2 ^ 63)
      with ((nextCount * 1000000000 - 2 ^ 63) + 1 * 2 ^ 64) by lia.
    rewrite Z_mod_plus_full, Z.mod_small by lia. exec. unfold extend. do 5 f_equal. lia.
Qed.

Lemma Sleep_duration_wraps_past_292_years_witness :
  time.Sleep 60 Sample.empty_world =
    (Returned tt, extend Sample.empty_world [EvSleep 60000000000]) ∧
  ∃ d, time.Sleep 9223372037 Sample.empty_world =
         (Returned tt, extend Sample.empty_world [EvSleep d]) ∧ d < 0.
Proof.
  split.
  - apply (Sleep_duration_wraps_past_292_years 60 Sample.empty_world). lia.
  - destruct (Sleep_duration_wraps_past_292_years 9223372037 Sample.empty_world)
      as [_ Hwrap].
    destruct Hwrap as (d & Hrun & _ & Hneg); [lia|].
    exists d. split; [exact Hrun | exact Hneg].
Defined.

(** ** More on RecordHit *)

Section RecordHit_more.
Context `{Msgpack}.

(** X2. [RecordHit] writes under its own staging key and nowhere else:
    every other key of the store keeps its value, a call without a UUID
    leaves the whole store as it was, and no call touches directories, files
    or the call stack, deletes a key or reads the store. *)
Theorem RecordHit_touches_one_key (thisRecord : AnalyticsRecord)
    (newV4 : option uuid.UUID * option error) (w : World) (k : string) :
  let result := RedisAnalyticsHandler.RecordHit thisRecord newV4 w in
  (∀ u5, newV4.1 = Some u5 → k ≠ RedisAnalyticsHandler.keyName thisRecord u5 →
         redis result.2 !! k = redis w !! k) ∧
  (newV4.1 = None → redis result.2 = redis w) ∧
  dirs result.2 = dirs w ∧ files result.2 = files w ∧ stack result.2 = stack w ∧
  deleted_keys (since w result.2) = [] ∧ snapshots (since w result.2) = [].
Proof.
  intros result. subst result. destruct newV4 as [[u|] uerr]; simpl.
  - destruct (Marshal thisRecord).2 as [e|] eqn:He.
    + rewrite (RecordHit_not_encoded _ _ _ e) by exact He.
      unfold extend, since; simpl. rewrite drop_app_length. simpl.
      repeat split; auto; intros; discriminate.
    + rewrite RecordHit_encoded by exact He.
      unfold since; simpl. rewrite drop_app_length. simpl.
      repeat split; auto; try (intros; discriminate).
      intros u5 [= <-] Hk. now apply lookup_insert_ne.
  - rewrite RecordHit_nil_uuid. unfold since. rewrite drop_all.
    repeat split; auto; intros; discriminate.
Qed.

End RecordHit_more.

Lemma RecordHit_touches_one_key_witness :
  redis (@RedisAnalyticsHandler.RecordHit Sample.codec (Sample.hit "/users" 0)
           (Some Sample.u1, None) Sample.staged).2 !! "b" = Some "junk" ∧
  redis (@RedisAnalyticsHandler.RecordHit Sample.codec (Sample.hit "/users" 0)
           (None, None) Sample.staged).2 = redis Sample.staged.
Proof.
  split.
  - destruct (@RecordHit_touches_one_key Sample.codec (Sample.hit "/users" 0)
                (Some Sample.u1, None) Sample.staged "b") as (Hother & _).
    rewrite (Hother Sample.u1); [reflexivity | reflexivity | discriminate].
  - apply (@RecordHit_touches_one_key Sample.codec (Sample.hit "/users" 0)
             (None, None) Sample.staged "b"). reflexivity.
Defined.

(** ** More on the flat-file cycle *)

Lemma delete_calls_app (t1 t2 : list Event) :
  delete_calls (t1 ++ t2) = delete_calls t1 ++ delete_calls t2.
Proof. apply bind_app. Qed.

Lemma delete_calls_cons (e : Event) (t : list Event) :
  delete_calls (e :: t) = delete_call_of e ++ delete_calls t.
Proof. reflexivity. Qed.

Ltac observe_calls :=
  repeat (rewrite delete_calls_cons || rewrite delete_calls_app); observe.

Lemma accepted_prefix (result : nat → option error) (rows : list (list string)) :
  ∀ n, accepted result n rows `prefix_of` rows.
Proof.
  induction rows as [|row rest IH]; intros n; simpl; [reflexivity|].
  destruct (result n); [apply prefix_nil | apply prefix_cons, IH].
Qed.


Lemma first_failure_none (result : nat → option error) (rows : list (list string)) :
  ∀ n, first_failure result n rows = None → accepted result n rows = rows.
Proof.
  induction rows as [|row rest IH]; intros n Hok; simpl in *; [reflexivity|].
  destruct (result n); [discriminate|]. f_equal. now apply IH.
Qed.

(** A failing call among those that serve [rows] stops the writer before
    the row of that call. *)
Lemma accepted_stops (result : nat → option error) (rows : list (list string)) :
  ∀ n i, (n ≤ i < n + length rows)%nat → is_Some (result i) →
         is_Some (first_failure result n rows) ∧
         (n + length (accepted result n rows) ≤ i)%nat.
Proof.
  induction rows as [|row rest IH]; intros n i Hi Hfail; simpl in *; [lia|].
  destruct (result n) as [e|] eqn:Hn; simpl; [split; [eauto | lia]|].
  destruct (decide (i = n)) as [->|Hne].
  - rewrite Hn in Hfail. destruct Hfail as [? ?]. discriminate.
  - destruct (IH (S n) i) as [Hsome Hle]; [lia | exact Hfail |]. split; [exact Hsome | lia].
Qed.

Section CSV_exact.
Context `{Msgpack} `{MapRange} (config : AnalyticsConfig).

(** A writer that keeps an error takes no row. *)
Lemma csv_each_entry_failed (io : CSVPurger.Cycle) (entries : list (string * string)) :
  ∀ (writer : csv.Writer) (keys : list string) (w : World) (e : error),
  csv.failed writer = Some e →
  ∃ (writer' : csv.Writer) (t : list Event),
    CSVPurger.each_entry io entries writer keys w =
      (Returned (writer', keys ++ entries.*1), extend w t) ∧
    csv.out writer' = csv.out writer ∧
    csv.buffered writer' = csv.buffered writer ∧
    csv.failed writer' = Some e ∧
    delete_calls t = [] ∧
    snapshots t = [].
Proof.
  induction entries as [|[k v] rest IH]; intros writer keys w e Hf.
  - exists writer, []. simpl. rewrite extend_nil, !app_nil_r. repeat split; auto.
  - simpl. destruct (Unmarshal v) as [decoded [e1|]] eqn:Hv; simpl.
    + exec.
      match goal with
      | |- context [CSVPurger.each_entry io rest ?wr ?ks ?w1] =>
          destruct (IH wr ks w1 e Hf) as (writer' & t & Hrun & Hout & Hbuf & Hfail & Hdel & Hsnap)
      end.
      rewrite Hrun.
      exists writer', ([EvLog ErrorLevel (Msg "Couldn't unmarshal analytics data:");
                        EvLog ErrorLevel (Err e1)] ++ t).
      split; [rewrite <- app_assoc; same_world|].
      split; [exact Hout|]. split; [exact Hbuf|]. split; [exact Hfail|].
      split; [observe_calls; now rewrite Hdel | observe_calls; now rewrite Hsnap].
    + unfold csv.Write. rewrite Hf. exec.
      match goal with
      | |- context [CSVPurger.each_entry io rest ?wr ?ks ?w1] =>
          destruct (IH wr ks w1 e eq_refl)
            as (writer' & t & Hrun & Hout & Hbuf & Hfail & Hdel & Hsnap)
      end.
      rewrite Hrun. simpl in Hout, Hbuf.
      exists writer', ([EvWrite (CSVPurger.toWrite decoded);
                        EvLog ErrorLevel (Msg "File write failed!");
                        EvLog ErrorLevel (Err e)] ++ t).
      split; [rewrite <- app_assoc; same_world|].
      split; [exact Hout|]. split; [exact Hbuf|]. split; [exact Hfail|].
      split; [observe_calls; now rewrite Hdel | observe_calls; now rewrite Hsnap].
Qed.

Lemma csv_each_entry_exact (io : CSVPurger.Cycle) (entries : list (string * string)) :
  ∀ (writer : csv.Writer) (keys : list string) (w : World),
  csv.failed writer = None →
  ∃ (writer' : csv.Writer) (t : list Event),
    CSVPurger.each_entry io entries writer keys w =
      (Returned (writer', keys ++ entries.*1), extend w t) ∧
    csv.out writer' = csv.out writer ∧
    csv.buffered writer' =
      csv.buffered writer ++
      accepted (CSVPurger.Write_result io) (csv.served writer) (decoded_rows entries) ∧
    csv.failed writer' =
      first_failure (CSVPurger.Write_result io) (csv.served writer) (decoded_rows entries) ∧
    delete_calls t = [] ∧
    snapshots t = [] ∧
    (is_Some (first_failure (CSVPurger.Write_result io) (csv.served writer)
                (decoded_rows entries)) →
     Msg "File write failed!" ∈ logged_errors t).
Proof.
  induction entries as [|[k v] rest IH]; intros writer keys w Hf.
  - exists writer, []. simpl. rewrite extend_nil, !app_nil_r.
    split; [reflexivity|]. split; [reflexivity|]. split; [reflexivity|].
    split; [exact Hf|]. split; [reflexivity|]. split; [reflexivity|].
    unfold decoded_rows. simpl. intros [? ?]. discriminate.
  - simpl. destruct (Unmarshal v) as [decoded [e|]] eqn:Hv; simpl.
    + assert (decodes v = false) as Hbad by (unfold decodes; now rewrite Hv).
      exec.
      match goal with
      | |- context [CSVPurger.each_entry io rest ?wr ?ks ?w1] =>
          destruct (IH wr ks w1 Hf)
            as (writer' & t & Hrun & Hout & Hbuf & Hfail & Hdel & Hsnap & Hlog)
      end.
      rewrite Hrun.
      exists writer', ([EvLog ErrorLevel (Msg "Couldn't unmarshal analytics data:");
                        EvLog ErrorLevel (Err e)] ++ t).
      split; [rewrite <- app_assoc; same_world|].
      rewrite decoded_rows_skip by exact Hbad.
      split; [exact Hout|]. split; [exact Hbuf|]. split; [exact Hfail|].
      split; [observe_calls; now rewrite Hdel|].
      split; [observe_calls; now rewrite Hsnap|].
      intros Hlt. observe. simpl. do 2 right. auto.
    + assert (decodes v = true) as Hgood by (unfold decodes; now rewrite Hv).
      assert ((Unmarshal v).1 = decoded) as Hdec by now rewrite Hv.
      rewrite decoded_rows_keep, Hdec by exact Hgood.
      unfold csv.Write. rewrite Hf. exec.
      destruct (CSVPurger.Write_result io (csv.served writer)) as [e|] eqn:Hw; exec.
      * match goal with
        | |- context [CSVPurger.each_entry io rest ?wr ?ks ?w1] =>
            destruct (csv_each_entry_failed io rest wr ks w1 e eq_refl)
              as (writer' & t & Hrun & Hout & Hbuf & Hfail & Hdel & Hsnap)
        end.
        rewrite Hrun. simpl in Hout, Hbuf.
        exists writer', ([EvWrite (CSVPurger.toWrite decoded);
                          EvLog ErrorLevel (Msg "File write failed!");
                          EvLog ErrorLevel (Err e)] ++ t).
        split; [rewrite <- app_assoc; same_world|].
        split; [exact Hout|]. split; [now rewrite Hbuf, app_nil_r|]. split; [exact Hfail|].
        split; [observe_calls; now rewrite Hdel|].
        split; [observe_calls; now rewrite Hsnap|].
        intros _. observe. simpl. left.
      * match goal with
        | |- context [CSVPurger.each_entry io rest ?wr ?ks ?w1] =>
            destruct (IH wr ks w1 eq_refl)
              as (writer' & t & Hrun & Hout & Hbuf & Hfail & Hdel & Hsnap & Hlog)
        end.
        rewrite Hrun. simpl in Hout, Hbuf, Hfail, Hlog.
        exists writer', ([EvWrite (CSVPurger.toWrite decoded)] ++ t).
        split; [rewrite <- app_assoc; same_world|].
        split; [exact Hout|].
        split; [rewrite Hbuf, <- app_assoc; reflexivity|].
        split; [exact Hfail|].
        split; [observe_calls; now rewrite Hdel|].
        split; [observe_calls; now rewrite Hsnap|].
        intros Hlt. observe. simpl. apply Hlog. exact Hlt.
Qed.

(** What a flat-file cycle leaves behind once the header row is written. *)
Lemma csv_PurgeCache_exact (io : CSVPurger.Cycle) (w : World) :
  CSVPurger.Write_result io 0%nat = None →
  ∃ (w' : World) (t : list Event),
    CSVPurger.PurgeCache config io w = (Returned tt, w') ∧
    trace w' = trace w ++ t ∧
    redis w' =
      RedisStorageManager.delete_all (range (redis w)).*1
        (after_puts (CSVPurger.recorded_meanwhile io) (redis w)) ∧
    delete_calls t = [(range (redis w)).*1] ∧
    snapshots t = [tt] ∧
    files w' =
      match CSVPurger.Create_result io with
      | None =>
          <[CSVPurger.fname config (CSVPurger.Now io) :=
              left_in_file io (decoded_rows (range (redis w)))]> (files w)
      | Some _ => files w
      end ∧
    dirs w' =
      match CSVPurger.MkdirAll_result io with
      | None => {[CSVDir config]} ∪ dirs w
      | Some _ => dirs w
      end ∧
    (∀ e, CSVPurger.MkdirAll_result io = Some e → Err e ∈ logged_errors t) ∧
    (is_Some (first_failure (CSVPurger.Write_result io) 1 (decoded_rows (range (redis w)))) →
     Msg "File write failed!" ∈ logged_errors t).
Proof.
  intros Hhdr. unfold CSVPurger.PurgeCache, os.MkdirAll, os.Create, csv.Write, csv.Flush.
  destruct (CSVPurger.MkdirAll_result io) as [me|] eqn:Hmk;
  destruct (CSVPurger.Create_result io) as [ce|] eqn:Hcr; exec; rewrite Hhdr; exec.
  all: match goal with
       | |- context [CSVPurger.each_entry ?c ?es ?wr ?ks ?w1] =>
           destruct (csv_each_entry_exact c es wr ks w1 eq_refl)
             as (writer' & t & Hrun & Hout & Hbuf & Hfail & Hdel & Hsnap & Hlog)
       end; rewrite Hrun; exec; simpl in Hout, Hbuf, Hfail, Hlog; rewrite Hout; exec.
  all: eexists; eexists; split; [reflexivity|]; simpl.
  all: rewrite <- ?app_assoc; simpl.
  all: (split; [reflexivity|]); (split; [reflexivity|]).
  all: (split; [observe_calls; rewrite Hdel; simpl; now rewrite ?app_nil_r|]).
  all: (split; [observe_calls; rewrite Hsnap; reflexivity|]).
  all: (split; [try reflexivity;
                rewrite lookup_insert_eq, insert_insert_eq; simpl;
                unfold csv.carried, left_in_file; now rewrite Hfail, Hbuf|]).
  all: (split; [reflexivity|]).
  all: split; [intros e0 [= <-] || (intros e0 He0; discriminate) |
               intros Hlt; observe; simpl;
               rewrite ?elem_of_cons, ?elem_of_app; auto 10].
  all: observe; simpl; rewrite ?elem_of_cons, ?elem_of_app; auto 10.
Qed.

End CSV_exact.

Section CSV_more.
Context `{Msgpack} `{MapRange} (config : AnalyticsConfig).

Lemma range_empty : range (∅ : gmap string string) = [].
Proof.
  apply Permutation_nil_r. rewrite (range_visits_all ∅). now rewrite map_to_list_empty.
Qed.

Lemma delete_all_snapshot (m : gmap string string) :
  RedisStorageManager.delete_all (range m).*1 m = ∅.
Proof.
  apply map_empty. intros k. rewrite delete_all_lookup.
  destruct (decide (k ∈ (range m).*1)) as [Hin|Hnotin]; [reflexivity|].
  rewrite range_keys in Hnotin. destruct (m !! k) eqn:Hk; [|reflexivity].
  exfalso. apply Hnotin. eauto.
Qed.

Lemma left_in_file_prefix (io : CSVPurger.Cycle) (rows : list (list string)) :
  left_in_file io rows `prefix_of` CSVPurger.headers :: rows.
Proof.
  assert (CSVPurger.headers :: accepted (CSVPurger.Write_result io) 1 rows
            `prefix_of` CSVPurger.headers :: rows) as Htaken
    by apply prefix_cons, accepted_prefix.
  unfold left_in_file.
  destruct (first_failure _ _ _); [|destruct (CSVPurger.Flush_result io)]; try exact Htaken.
  all: etrans; [apply prefix_take | exact Htaken].
Qed.

Lemma left_in_file_all (io : CSVPurger.Cycle) (rows : list (list string)) :
  first_failure (CSVPurger.Write_result io) 1 rows = None →
  CSVPurger.Flush_result io = None →
  left_in_file io rows = CSVPurger.headers :: rows.
Proof.
  intros Hok Hflush. unfold left_in_file.
  now rewrite Hok, Hflush, (first_failure_none _ _ _ Hok).
Qed.

Lemma first_failure_never (result : nat → option error) (rows : list (list string)) :
  ∀ n, (∀ i, result i = None) → first_failure result n rows = None.
Proof.
  induction rows as [|row rest IH]; intros n Hok; simpl; [reflexivity|].
  rewrite Hok. now apply IH.
Qed.

Lemma left_in_file_stops (io : CSVPurger.Cycle) (rows : list (list string)) (i : nat) :
  (1 ≤ i ≤ length rows)%nat → is_Some (CSVPurger.Write_result io i) →
  (length (left_in_file io rows) ≤ i)%nat.
Proof.
  intros Hi Hfail.
  destruct (accepted_stops (CSVPurger.Write_result io) rows 1 i) as [[e He] Hle];
    [lia | exact Hfail |].
  unfold left_in_file. rewrite He, length_take. simpl. lia.
Qed.

Lemma csv_PurgeCache_header_failed_exact (io : CSVPurger.Cycle) (w : World) (e : error) :
  CSVPurger.Write_result io 0%nat = Some e →
  ∃ (w' : World) (t : list Event),
    CSVPurger.PurgeCache config io w = (Returned tt, w') ∧
    trace w' = trace w ++ t ∧
    redis w' = redis w ∧
    delete_calls t = [] ∧
    snapshots t = [] ∧
    files w' =
      match CSVPurger.Create_result io with
      | None => <[CSVPurger.fname config (CSVPurger.Now io) := []]> (files w)
      | Some _ => files w
      end ∧
    Msg "Failed to write file headers!" ∈ logged_errors t ∧
    Err e ∈ logged_errors t.
Proof.
  intros Hhdr. unfold CSVPurger.PurgeCache, os.MkdirAll, os.Create, csv.Write, csv.Flush.
  destruct (CSVPurger.MkdirAll_result io) as [me|] eqn:Hmk;
  destruct (CSVPurger.Create_result io) as [ce|] eqn:Hcr; exec; rewrite Hhdr; exec.
  all: eexists; eexists; split; [reflexivity|]; simpl.
  all: rewrite <- ?app_assoc; simpl.
  all: repeat (split; [reflexivity|]).
  all: split; observe; simpl; rewrite ?elem_of_cons; auto 10.
Qed.

End CSV_more.

(** X5. When the header row cannot be written the flat-file cycle stops
    there: both messages are logged, the store is neither read nor changed,
    [DeleteKeys] is not called, and the file that was created stays empty
    (the writer is never flushed). *)
Theorem csv_header_failure_abandons_the_cycle `{Msgpack} `{MapRange}
    (config : AnalyticsConfig) (io : CSVPurger.Cycle) (w : World) (e : error) :
  CSVPurger.Write_result io 0%nat = Some e →
  let run := CSVPurger.PurgeCache config io w in
  run.1 = Returned tt ∧
  redis run.2 = redis w ∧
  snapshots (since w run.2) = [] ∧
  delete_calls (since w run.2) = [] ∧
  Msg "Failed to write file headers!" ∈ logged_errors (since w run.2) ∧
  Err e ∈ logged_errors (since w run.2) ∧
  (CSVPurger.Create_result io = None →
     files run.2 !! CSVPurger.fname config (CSVPurger.Now io) = Some []).
Proof.
  intros Hhdr run. subst run.
  destruct (csv_PurgeCache_header_failed_exact config io w e Hhdr)
    as (w' & t & Hrun & Ht & Hredis & Hdel & Hsnap & Hfiles & Hl1 & Hl2).
  rewrite Hrun. simpl. rewrite (since_app _ _ _ Ht).
  repeat split; auto.
  intros Hcr. rewrite Hfiles, Hcr. apply lookup_insert_eq.
Qed.

Lemma csv_header_failure_abandons_the_cycle_witness :
  let run :=
    @CSVPurger.PurgeCache Sample.codec Sample.in_order Sample.config Sample.csv_no_header
      Sample.staged in
  redis run.2 = redis Sample.staged ∧
  files run.2 !! "/tmp/csv2014-March-1-12-0.csv" = Some [].
Proof.
  intros run.
  pose proof (@csv_header_failure_abandons_the_cycle Sample.codec Sample.in_order
                Sample.config Sample.csv_no_header Sample.staged
                (ForeignError "write: no space left on device") eq_refl)
    as (_ & Hredis & _ & _ & _ & _ & Hfile).
  split; [exact Hredis | exact (Hfile eq_refl)].
Defined.

(** X6. The error of [os.Create] is thrown away. When the file cannot be
    created but the writer accepts the header row, the cycle goes on: no
    file is written, and still every key of the snapshot is deleted from the
    store. *)
Theorem csv_ignores_a_failed_Create `{Msgpack} `{MapRange}
    (config : AnalyticsConfig) (io : CSVPurger.Cycle) (w : World) (e : error) :
  CSVPurger.Create_result io = Some e →
  CSVPurger.Write_result io 0%nat = None →
  let run := CSVPurger.PurgeCache config io w in
  run.1 = Returned tt ∧
  files run.2 = files w ∧
  delete_calls (since w run.2) = [(range (redis w)).*1] ∧
  ∀ k, is_Some (redis w !! k) → redis run.2 !! k = None.
Proof.
  intros Hcr Hhdr run. subst run.
  destruct (csv_PurgeCache_exact config io w Hhdr)
    as (w' & t & Hrun & Ht & Hredis & Hdel & _ & Hfiles & _).
  rewrite Hrun. simpl. rewrite (since_app _ _ _ Ht).
  rewrite Hcr in Hfiles. repeat split; auto.
  intros k Hk. rewrite Hredis, delete_all_lookup.
  rewrite decide_True; [reflexivity | now apply range_keys].
Qed.

Lemma csv_ignores_a_failed_Create_witness :
  let run :=
    @CSVPurger.PurgeCache Sample.codec Sample.in_order Sample.config Scenario.csv_no_file
      Sample.staged3 in
  files run.2 = ∅ ∧ redis run.2 !! "a" = None.
Proof.
  intros run.
  pose proof (@csv_ignores_a_failed_Create Sample.codec Sample.in_order Sample.config
                Scenario.csv_no_file Sample.staged3
                (ForeignError "open: no such file or directory") eq_refl eq_refl)
    as (_ & Hfiles & _ & Hgone).
  split; [exact Hfiles|]. apply Hgone. exists "r/users". reflexivity.
Defined.

(** X8. Row errors cost rows, not the cycle. The writer keeps the first
    error of the file, so what the file holds afterwards is a prefix of the
    header row followed by the decoded rows in the order of iteration. When
    the [Write] of the i-th of these rows (counted from 1) reports an error,
    neither that row nor a later one is in the file, which is at most i
    rows long with its header, and "File write failed!" is in the log; when
    no [Write] and not the [Flush] meets an error the file holds them all.
    Every key of the snapshot is deleted in either case. *)
Theorem csv_row_failures_lose_rows_not_the_cycle `{Msgpack} `{MapRange}
    (config : AnalyticsConfig) (io : CSVPurger.Cycle) (w : World) :
  CSVPurger.Create_result io = None →
  CSVPurger.Write_result io 0%nat = None →
  let run := CSVPurger.PurgeCache config io w in
  let rows := decoded_rows (range (redis w)) in
  ∃ content : CsvFile,
    files run.2 !! CSVPurger.fname config (CSVPurger.Now io) = Some content ∧
    content `prefix_of` CSVPurger.headers :: rows ∧
    (∀ k, is_Some (redis w !! k) → redis run.2 !! k = None) ∧
    (∀ i, (1 ≤ i ≤ length rows)%nat →
          is_Some (CSVPurger.Write_result io i) →
          (length content ≤ i)%nat ∧
          Msg "File write failed!" ∈ logged_errors (since w run.2)) ∧
    ((∀ i, CSVPurger.Write_result io i = None) → CSVPurger.Flush_result io = None →
     content = CSVPurger.headers :: rows).
Proof.
  intros Hcr Hhdr run rows. subst run rows.
  destruct (csv_PurgeCache_exact config io w Hhdr)
    as (w' & t & Hrun & Ht & Hredis & _ & _ & Hfiles & _ & _ & Hlog).
  rewrite Hrun. simpl. rewrite (since_app _ _ _ Ht). rewrite Hcr in Hfiles.
  exists (left_in_file io (decoded_rows (range (redis w)))).
  split; [rewrite Hfiles; apply lookup_insert_eq|].
  split; [apply left_in_file_prefix|].
  split; [|split].
  - intros k Hk. rewrite Hredis, delete_all_lookup.
    rewrite decide_True; [reflexivity | now apply range_keys].
  - intros i Hi Hfail. split; [now apply left_in_file_stops|].
    apply Hlog. apply (accepted_stops _ _ 1%nat i); [lia | exact Hfail].
  - intros Hall Hflush. apply left_in_file_all; [now apply first_failure_never | exact Hflush].
Qed.

Lemma csv_row_failures_lose_rows_not_the_cycle_witness :
  let run :=
    @CSVPurger.PurgeCache Sample.codec Sample.in_order Sample.config
      Scenario.csv_second_row_fails Sample.staged3 in
  (∃ content,
     files run.2 !! "/tmp/csv2014-March-1-12-0.csv" = Some content ∧
     (length content ≤ 2)%nat ∧
     Msg "File write failed!" ∈ logged_errors (since Sample.staged3 run.2)) ∧
  redis run.2 !! "a" = None.
Proof.
  intros run.
  pose proof (@csv_row_failures_lose_rows_not_the_cycle Sample.codec Sample.in_order
                Sample.config Scenario.csv_second_row_fails Sample.staged3 eq_refl eq_refl)
    as (content & Hfile & _ & Hgone & Hlost & _).
  split.
  - exists content. split; [exact Hfile|].
    apply (Hlost 2%nat); [vm_compute; lia | eexists; reflexivity].
  - apply Hgone. exists "r/users". reflexivity.
Defined.

(** X9. On an empty store the flat-file cycle still reads the store and
    still calls [DeleteKeys], with no keys; the file it creates holds the
    header row alone when the [Flush] succeeds, and it holds no row of a
    record whatever the [Flush] does. *)
Theorem csv_empty_store_writes_header_only `{Msgpack} `{MapRange}
    (config : AnalyticsConfig) (io : CSVPurger.Cycle) (w : World) :
  redis w = ∅ →
  CSVPurger.Write_result io 0%nat = None →
  let run := CSVPurger.PurgeCache config io w in
  run.1 = Returned tt ∧
  snapshots (since w run.2) = [tt] ∧
  delete_calls (since w run.2) = [[]] ∧
  (CSVPurger.Create_result io = None →
     (∃ content,
        files run.2 !! CSVPurger.fname config (CSVPurger.Now io) = Some content ∧
        content `prefix_of` [CSVPurger.headers]) ∧
     (CSVPurger.Flush_result io = None →
        files run.2 !! CSVPurger.fname config (CSVPurger.Now io) = Some [CSVPurger.headers])).
Proof.
  intros Hempty Hhdr run. subst run.
  destruct (csv_PurgeCache_exact config io w Hhdr)
    as (w' & t & Hrun & Ht & _ & Hdel & Hsnap & Hfiles & _).
  rewrite Hrun. simpl. rewrite (since_app _ _ _ Ht).
  rewrite Hempty, range_empty in *. simpl in Hdel.
  split; [reflexivity|]. split; [exact Hsnap|]. split; [exact Hdel|].
  intros Hcr. rewrite Hfiles, Hcr, lookup_insert_eq. split.
  - eexists. split; [reflexivity|]. apply (left_in_file_prefix io []).
  - intros Hflush. f_equal. now apply left_in_file_all.
Qed.

Lemma csv_empty_store_writes_header_only_witness :
  let run :=
    @CSVPurger.PurgeCache Sample.codec Sample.in_order Sample.config Scenario.csv_quiet
      Sample.empty_world in
  delete_calls (since Sample.empty_world run.2) = [[]] ∧
  files run.2 !! "/tmp/csv2014-March-1-12-0.csv" = Some [CSVPurger.headers].
Proof.
  intros run.
  pose proof (@csv_empty_store_writes_header_only Sample.codec Sample.in_order Sample.config
                Scenario.csv_quiet Sample.empty_world eq_refl eq_refl)
    as (_ & _ & Hdel & Hfile).
  split; [exact Hdel | exact (proj2 (Hfile eq_refl) eq_refl)].
Defined.

(** X10. The file name has the minute as its last field and [os.Create]
    truncates. Take two cycles in the same minute with no capture in
    between, in which the file is created and neither a [Write] nor the
    [Flush] meets an error. The first writes the rows of the snapshot and
    empties the store; the second then leaves a file with nothing but the
    header row, so the rows of the first are neither in the file nor in the
    store. *)
Theorem csv_second_cycle_in_a_minute_replaces_the_file `{Msgpack} `{MapRange}
    (config : AnalyticsConfig) (first second : CSVPurger.Cycle) (w : World) :
  CSVPurger.Now second = CSVPurger.Now first →
  CSVPurger.Create_result first = None → CSVPurger.Create_result second = None →
  (∀ n, CSVPurger.Write_result first n = None) → CSVPurger.Write_result second 0%nat = None →
  CSVPurger.Flush_result first = None → CSVPurger.Flush_result second = None →
  CSVPurger.recorded_meanwhile first = [] → CSVPurger.recorded_meanwhile second = [] →
  let w1 := (CSVPurger.PurgeCache config first w).2 in
  let w2 := (CSVPurger.PurgeCache config second w1).2 in
  files w1 !! CSVPurger.fname config (CSVPurger.Now first) =
    Some (CSVPurger.headers :: decoded_rows (range (redis w))) ∧
  files w2 !! CSVPurger.fname config (CSVPurger.Now first) = Some [CSVPurger.headers] ∧
  redis w2 = ∅.
Proof.
  intros Hnow Hc1 Hc2 Hw1 Hh2 Hf1 Hf2 Hq1 Hq2 w1 w2. subst w1 w2.
  destruct (csv_PurgeCache_exact config first w (Hw1 0%nat))
    as (w1 & t1 & Hrun1 & _ & Hredis1 & _ & _ & Hfiles1 & _).
  rewrite Hrun1. simpl.
  destruct (csv_PurgeCache_exact config second w1 Hh2)
    as (w2 & t2 & Hrun2 & _ & Hredis2 & _ & _ & Hfiles2 & _).
  rewrite Hrun2. simpl.
  rewrite Hq1 in Hredis1. simpl in Hredis1. rewrite delete_all_snapshot in Hredis1.
  rewrite Hc1, left_in_file_all in Hfiles1
    by (try apply first_failure_never; assumption).
  rewrite Hc2, Hnow, Hredis1, range_empty, left_in_file_all in Hfiles2
    by (try reflexivity; assumption).
  rewrite Hq2, Hredis1, range_empty in Hredis2. simpl in Hredis2.
  split; [rewrite Hfiles1; apply lookup_insert_eq|].
  split; [rewrite Hfiles2; apply lookup_insert_eq | exact Hredis2].
Qed.

Lemma csv_second_cycle_in_a_minute_replaces_the_file_witness :
  let w1 :=
    (@CSVPurger.PurgeCache Sample.codec Sample.in_order Sample.config Scenario.csv_quiet
       Sample.staged3).2 in
  let w2 :=
    (@CSVPurger.PurgeCache Sample.codec Sample.in_order Sample.config Scenario.csv_quiet w1).2 in
  length (default [] (files w1 !! "/tmp/csv2014-March-1-12-0.csv")) = 4%nat ∧
  files w2 !! "/tmp/csv2014-March-1-12-0.csv" = Some [CSVPurger.headers] ∧
  redis w2 = ∅.
Proof.
  intros w1 w2.
  pose proof (@csv_second_cycle_in_a_minute_replaces_the_file Sample.codec Sample.in_order
                Sample.config Scenario.csv_quiet Scenario.csv_quiet Sample.staged3
                eq_refl eq_refl eq_refl (λ _, eq_refl) eq_refl eq_refl eq_refl eq_refl eq_refl)
    as (Hfile1 & Hfile2 & Hredis).
  split; [|split; [exact Hfile2 | exact Hredis]].
  subst w1.
  change "/tmp/csv2014-March-1-12-0.csv"
    with (@CSVPurger.fname Sample.config (CSVPurger.Now Scenario.csv_quiet)).
  rewrite Hfile1. reflexivity.
Defined.

(** ** More on the document-store cycle *)

Section Mongo_more.
Context `{Msgpack} `{MapRange} (config : AnalyticsConfig).

Lemma mongo_PurgeCache_connected_empty (ds : list (option Session * option error))
    (io : MongoPurger.Cycle) (m : MongoPurger.receiver) (session : Session) (w : World) :
  MongoPurger.dbSession m = Some session →
  redis w = ∅ →
  MongoPurger.PurgeCache_from config ds io m w =
    (Returned m,
     mkWorld (after_puts (MongoPurger.recorded_meanwhile io) ∅) (dirs w) (files w) (stack w)
       (trace w ++ [EvStore CallGetKeysAndValues])).
Proof.
  intros Hm Hempty. destruct ds as [|d ds]; simpl; rewrite Hm; exec.
  all: rewrite Hempty, map_size_empty; simpl; reflexivity.
Qed.

(** A loop that starts with a session never dials, and drains once per
    cycle. *)
Lemma mongo_StartPurgeLoop_connected (cycles : list MongoPurger.Cycle) (n : Z) :
  ∀ (m : MongoPurger.receiver) (w : World),
  is_Some (MongoPurger.dbSession m) →
  ∃ (w' : World) (t : list Event),
    MongoPurger.StartPurgeLoop config cycles m n w = (StillRunning, w') ∧
    trace w' = trace w ++ t ∧
    dials t = [] ∧
    snapshots t = replicate (length cycles) tt.
Proof.
  induction cycles as [|io later IH]; intros m w [s Hm]; simpl; exec.
  - eexists. eexists. split; [reflexivity|]. simpl. repeat split; reflexivity.
  - unfold MongoPurger.PurgeCache.
    match goal with
    | |- context [MongoPurger.PurgeCache_from config ?ds io m ?w1] =>
        destruct (mongo_PurgeCache_connected config ds io m s w1 Hm)
          as (w2 & t & Hrun & Ht & _ & Hsnap & Hdial & _)
    end.
    rewrite Hrun. destruct (IH m w2 (ex_intro _ s Hm)) as (w3 & t3 & Hloop & Ht3 & Hd3 & Hs3).
    rewrite Hloop. exists w3, ([EvSleep (time.wrap64 (n * time.Second))] ++ t ++ t3).
    split; [reflexivity|]. simpl in Ht.
    split; [rewrite Ht3, Ht; simpl; now rewrite <- !app_assoc|].
    split; observe; rewrite ?Hdial, ?Hd3, ?Hsnap, ?Hs3; reflexivity.
Qed.

End Mongo_more.

(** X11. On an empty store the document-store cycle only reads the store:
    there is no bulk insert and no [DeleteKeys] call. *)
Theorem mongo_empty_store_is_left_alone `{Msgpack} `{MapRange}
    (config : AnalyticsConfig) (io : MongoPurger.Cycle) (m : MongoPurger.receiver)
    (w : World) :
  is_Some (MongoPurger.dbSession m) →
  redis w = ∅ →
  let run := MongoPurger.PurgeCache config io m w in
  run.1 = Returned m ∧
  since w run.2 = [EvStore CallGetKeysAndValues] ∧
  inserted_batches (since w run.2) = [] ∧
  delete_calls (since w run.2) = [].
Proof.
  intros [s Hm] Hempty run. subst run. unfold MongoPurger.PurgeCache.
  rewrite (mongo_PurgeCache_connected_empty config _ io m s w Hm Hempty). simpl.
  unfold since. simpl. rewrite drop_app_length. repeat split; reflexivity.
Qed.

Lemma mongo_empty_store_is_left_alone_witness :
  since Sample.empty_world
    (@MongoPurger.PurgeCache Sample.codec Sample.in_order Sample.config Sample.mongo_ok
       Sample.connected Sample.empty_world).2 = [EvStore CallGetKeysAndValues].
Proof.
  apply (@mongo_empty_store_is_left_alone Sample.codec Sample.in_order Sample.config
           Sample.mongo_ok Sample.connected Sample.empty_world).
  - exists Sample.session. reflexivity.
  - reflexivity.
Defined.

(** X12. The session outlives the cycle that dialled. [StartPurgeLoop] has
    a value receiver, but the copy it passes on to the next call carries the
    session, so over any number of cycles [mgo.Dial] is called once if the
    purger started without a session and never if it started with one, and
    every cycle takes exactly one snapshot. *)
Theorem mongo_loop_dials_once `{Msgpack} `{MapRange}
    (config : AnalyticsConfig) (io : MongoPurger.Cycle) (later : list MongoPurger.Cycle)
    (m : MongoPurger.receiver) (n : Z) (w : World) :
  has_session m io = true →
  let run := MongoPurger.StartPurgeLoop config (io :: later) m n w in
  run.1 = StillRunning ∧
  dials (since w run.2) =
    match MongoPurger.dbSession m with Some _ => [] | None => [MongoURL config] end ∧
  snapshots (since w run.2) = replicate (S (length later)) tt.
Proof.
  intros Hs run. subst run. simpl. exec.
  match goal with
  | |- context [MongoPurger.PurgeCache config io m ?w1] =>
      destruct (mongo_PurgeCache_with_session config io m w1 Hs)
        as (m' & w2 & t & Hrun & Hm' & Ht & _ & Hsnap & Hdial & _)
  end.
  rewrite Hrun.
  destruct (mongo_StartPurgeLoop_connected config later n m' w2 Hm')
    as (w3 & t3 & Hloop & Ht3 & Hd3 & Hs3).
  rewrite Hloop. simpl. simpl in Ht.
  assert (trace w3 = trace w ++ [EvSleep (time.wrap64 (n * time.Second))] ++ t ++ t3) as Hall
    by (rewrite Ht3, Ht; now rewrite <- !app_assoc).
  rewrite (since_app _ _ _ Hall).
  split; [reflexivity|].
  split; observe; rewrite ?Hdial, ?Hd3, ?Hsnap, ?Hs3; simpl; now rewrite ?app_nil_r.
Qed.

Lemma mongo_loop_dials_once_witness :
  dials (since Sample.staged
           (@MongoPurger.StartPurgeLoop Sample.codec Sample.in_order Sample.config
              [Sample.mongo_ok; Sample.mongo_insert_fails; Sample.mongo_ok]
              Sample.unconnected 60 Sample.staged).2) = ["mongodb://localhost/tyk"].
Proof.
  apply (@mongo_loop_dials_once Sample.codec Sample.in_order Sample.config Sample.mongo_ok
           [Sample.mongo_insert_fails; Sample.mongo_ok] Sample.unconnected 60 Sample.staged).
  reflexivity.
Defined.

(** X13. After a failed bulk insert the store is as it was (no capture in
    between), so the next cycle offers the same documents again, without
    dialling again; when that insert succeeds every key of the original
    snapshot is deleted. *)
Theorem mongo_failed_insert_is_retried_whole `{Msgpack} `{MapRange}
    (config : AnalyticsConfig) (first second : MongoPurger.Cycle) (m : MongoPurger.receiver)
    (w : World) (e : error) :
  has_session m first = true →
  bulk_insert_error first (redis w) = Some e →
  MongoPurger.recorded_meanwhile first = [] →
  let run1 := MongoPurger.PurgeCache config first m w in
  ∃ m1, run1.1 = Returned m1 ∧
  let run2 := MongoPurger.PurgeCache config second m1 run1.2 in
  redis run1.2 = redis w ∧
  dials (since run1.2 run2.2) = [] ∧
  (∃ batch1 batch2,
     inserted_batches (since w run1.2) = [batch1] ∧
     inserted_batches (since run1.2 run2.2) = [batch2] ∧
     batch1 ≡ₚ batch2) ∧
  (bulk_insert_error second (redis w) = None →
     ∀ k, is_Some (redis w !! k) → redis run2.2 !! k = None).
Proof.
  intros Hs Hfail Hquiet run1. subst run1.
  destruct (mongo_PurgeCache_with_session config first m w Hs)
    as (m1 & w1 & t1 & Hrun1 & [s1 Hm1] & Ht1 & _ & _ & _ & _ & Hins1 & _ & Hend1).
  rewrite Hfail in Hend1. destruct Hend1 as (Hredis1 & _).
  rewrite Hquiet in Hredis1. simpl in Hredis1.
  exists m1. rewrite Hrun1. simpl. split; [reflexivity|].
  assert (has_session m1 second = true) as Hs2 by (unfold has_session; now rewrite Hm1).
  destruct (mongo_PurgeCache_with_session config second m1 w1 Hs2)
    as (m2 & w2 & t2 & Hrun2 & _ & Ht2 & _ & _ & Hdial2 & _ & Hins2 & _ & Hend2).
  rewrite Hrun2. simpl.
  rewrite (since_app _ _ _ Ht1), (since_app _ _ _ Ht2).
  rewrite Hm1 in Hdial2. rewrite Hredis1 in Hins2, Hend2.
  assert (0 < size (redis w))%nat as Hpos.
  { unfold bulk_insert_error in Hfail.
    destruct (decide (0 < size (redis w))%nat); [assumption | discriminate]. }
  rewrite decide_True in Hins1, Hins2 by exact Hpos.
  split; [exact Hredis1|]. split; [exact Hdial2|].
  split; [eauto|].
  intros Hok k Hk. rewrite Hok in Hend2. destruct Hend2 as [Hredis2 _].
  rewrite Hredis2, delete_all_lookup.
  rewrite decide_True; [reflexivity | now apply range_keys].
Qed.

Lemma mongo_failed_insert_is_retried_whole_witness :
  ∃ m1,
    (@MongoPurger.PurgeCache Sample.codec Sample.in_order Sample.config
       Scenario.mongo_quiet_failure Sample.unconnected Sample.staged).1 = Returned m1 ∧
    redis (@MongoPurger.PurgeCache Sample.codec Sample.in_order Sample.config
             Scenario.mongo_quiet m1
             (@MongoPurger.PurgeCache Sample.codec Sample.in_order Sample.config
                Scenario.mongo_quiet_failure Sample.unconnected Sample.staged).2).2 !! "a" = None.
Proof.
  destruct (@mongo_failed_insert_is_retried_whole Sample.codec Sample.in_order Sample.config
              Scenario.mongo_quiet_failure Scenario.mongo_quiet Sample.unconnected Sample.staged
              (ForeignError "insert: connection reset") eq_refl eq_refl eq_refl)
    as (m1 & Hret & _ & _ & _ & Hgone).
  exists m1. split; [exact Hret|].
  apply Hgone; [reflexivity|]. exists "r/users". reflexivity.
Defined.

(** ** From capture to sink *)

Lemma after_puts_snoc (puts : list (string * string)) (k v : string) (m : gmap string string) :
  after_puts (puts ++ [(k, v)]) m = <[k := v]> (after_puts puts m).
Proof. unfold after_puts. now rewrite foldl_app. Qed.

Lemma after_puts_to_list (puts : list (string * string)) :
  NoDup puts.*1 → map_to_list (after_puts puts ∅) ≡ₚ puts.
Proof.
  induction puts as [|[k v] puts IH] using rev_ind; intros Hnd.
  - unfold after_puts. simpl. now rewrite map_to_list_empty.
  - rewrite fmap_app in Hnd. apply NoDup_app in Hnd as (Hnd & Hfresh & _).
    rewrite after_puts_snoc, map_to_list_insert.
    + rewrite (IH Hnd). apply Permutation_cons_append.
    + rewrite after_puts_untouched; [apply lookup_empty|].
      intros Hin. apply (Hfresh k Hin). simpl. apply list_elem_of_here.
Qed.

Section Capture_then_drain.
Context `{Msgpack}.

Lemma RecordHits_stages (hits : list (AnalyticsRecord * uuid.UUID)) :
  Forall (λ h, (Marshal h.1).2 = None) hits →
  ∀ w, ∃ w',
    RedisAnalyticsHandler.RecordHits (map captured hits) w =
      (Returned (map (λ _, None) hits), w') ∧
    redis w' = after_puts (map staged_entry hits) (redis w) ∧
    dirs w' = dirs w ∧ files w' = files w ∧ stack w' = stack w.
Proof.
  induction hits as [|[r u] hits IH]; intros Hok w; simpl.
  - exists w. repeat split; reflexivity.
  - apply Forall_cons in Hok as [Hr Hok]. simpl in Hr.
    unfold mbind, Exec_bind. rewrite RecordHit_encoded by exact Hr.
    destruct (IH Hok (mkWorld (<[RedisAnalyticsHandler.keyName r u := (Marshal r).1]> (redis w))
                        (dirs w) (files w) (stack w)
                        (trace w ++ [EvStore (CallSetKey (RedisAnalyticsHandler.keyName r u)
                                                         (Marshal r).1 0)])))
      as (w' & Hrun & Hredis & Hd & Hf & Hs).
    fold (@mbind Exec _). unfold mbind, Exec_bind. rewrite Hrun.
    exists w'. repeat split; assumption.
Qed.

Lemma staged_entries_NoDup (hits : list (AnalyticsRecord * uuid.UUID)) :
  Forall uuid.wf hits.*2 → NoDup hits.*2 → NoDup (map staged_entry hits).*1.
Proof.
  intros Hwf Hnd. rewrite <- list_fmap_compose.
  now apply (keyNames_NoDup hits).
Qed.

Lemma round_trips_decodes (hits : list (AnalyticsRecord * uuid.UUID)) :
  Forall (λ h, round_trips h.1) hits →
  ∀ k v, (k, v) ∈ map staged_entry hits → decodes v = true.
Proof.
  intros Hrt k v Hin. apply list_elem_of_fmap in Hin as ([r u] & Heq & Hin).
  rewrite Forall_forall in Hrt. destruct (Hrt _ Hin) as [_ Hback].
  injection Heq as -> ->. simpl in *. unfold decodes. now rewrite Hback.
Qed.

Lemma round_trips_rows (hits : list (AnalyticsRecord * uuid.UUID)) :
  Forall (λ h, round_trips h.1) hits →
  map (λ kv, CSVPurger.toWrite (Unmarshal kv.2).1) (map staged_entry hits) =
  map (λ h, CSVPurger.toWrite h.1) hits.
Proof.
  induction 1 as [|[r u] hits [_ Hback] _ IH]; simpl; [reflexivity|].
  simpl in Hback. now rewrite Hback, IH.
Qed.

Lemma round_trips_slots (hits : list (AnalyticsRecord * uuid.UUID)) :
  Forall (λ h, round_trips h.1) hits →
  decoded_slots (map staged_entry hits) = map (λ h, Some h.1) hits.
Proof.
  induction 1 as [|[r u] hits [_ Hback] _ IH]; [reflexivity|].
  change (map staged_entry ((r, u) :: hits))
    with ((RedisAnalyticsHandler.keyName r u, (Marshal r).1) :: map staged_entry hits).
  rewrite decoded_slots_cons, IH. unfold decodes. simpl in Hback. now rewrite Hback.
Qed.

Lemma decoded_slots_Permutation (l1 l2 : list (string * string)) :
  l1 ≡ₚ l2 → decoded_slots l1 ≡ₚ decoded_slots l2.
Proof. intros Hp. unfold decoded_slots. now rewrite Hp. Qed.

End Capture_then_drain.

(** X14. From capture to the flat file. Records that the codec gives back
    unchanged, captured with pairwise distinct UUIDs into an empty store,
    each get a staging entry of their own; one flat-file cycle in which
    the file is created and neither a [Write] nor the [Flush] meets an
    error then writes the header row and one row per captured record,
    carrying that record's own fields, and leaves the store empty. *)
Theorem captured_records_reach_the_csv_file `{Msgpack} `{MapRange}
    (config : AnalyticsConfig) (hits : list (AnalyticsRecord * uuid.UUID))
    (io : CSVPurger.Cycle) (w : World) :
  Forall uuid.wf hits.*2 → NoDup hits.*2 →
  Forall (λ h, round_trips h.1) hits →
  redis w = ∅ →
  CSVPurger.Create_result io = None →
  (∀ n, CSVPurger.Write_result io n = None) →
  CSVPurger.Flush_result io = None →
  CSVPurger.recorded_meanwhile io = [] →
  let w1 := (RedisAnalyticsHandler.RecordHits (map captured hits) w).2 in
  let w2 := (CSVPurger.PurgeCache config io w1).2 in
  size (redis w1) = length hits ∧
  (∃ rows,
     files w2 !! CSVPurger.fname config (CSVPurger.Now io) = Some (CSVPurger.headers :: rows) ∧
     rows ≡ₚ map (λ h, CSVPurger.toWrite h.1) hits) ∧
  redis w2 = ∅.
Proof.
  intros Hwf Hnd Hrt Hempty Hcr Hwr Hfl Hquiet w1 w2. subst w1 w2.
  assert (Forall (λ h, (Marshal h.1).2 = None) hits) as Hok
    by (eapply Forall_impl; [exact Hrt | intros h [Hm _]; exact Hm]).
  destruct (RecordHits_stages hits Hok w) as (w1 & Hrun1 & Hredis1 & _).
  rewrite Hrun1. simpl. rewrite Hempty in Hredis1.
  assert (range (redis w1) ≡ₚ map staged_entry hits) as Hsnap.
  { rewrite (range_visits_all (redis w1)), Hredis1.
    apply after_puts_to_list. now apply staged_entries_NoDup. }
  destruct (csv_PurgeCache_header_written config io w1 (Hwr 0%nat))
    as (w2 & t & Hrun2 & _ & _ & Hredis2 & _ & _ & _ & _ & Hfiles & _).
  rewrite Hrun2. simpl.
  split; [|split].
  - rewrite <- range_length, Hsnap. now rewrite length_map.
  - exists (decoded_rows (range (redis w1))).
    split; [rewrite (Hfiles Hcr Hwr Hfl); apply lookup_insert_eq|].
    rewrite decoded_rows_all.
    + rewrite Hsnap. now rewrite round_trips_rows.
    + intros k v Hin. rewrite Hsnap in Hin. now apply (round_trips_decodes hits Hrt k).
  - rewrite Hredis2, Hquiet. simpl. apply delete_all_snapshot.
Qed.

Lemma captured_records_reach_the_csv_file_witness :
  let w1 :=
    (@RedisAnalyticsHandler.RecordHits Sample.codec (map captured Scenario.hits)
       Sample.empty_world).2 in
  let w2 :=
    (@CSVPurger.PurgeCache Sample.codec Sample.in_order Sample.config Scenario.csv_quiet w1).2 in
  size (redis w1) = 2%nat ∧ redis w2 = ∅.
Proof.
  intros w1 w2.
  destruct (@captured_records_reach_the_csv_file Sample.codec Sample.in_order Sample.config
              Scenario.hits Scenario.csv_quiet Sample.empty_world) as (Hsize & _ & Hempty).
  - repeat constructor.
  - apply NoDup_cons. split; [|apply NoDup_singleton].
    intros Hin. apply list_elem_of_singleton in Hin. discriminate.
  - repeat constructor.
  - reflexivity.
  - reflexivity.
  - intros n. reflexivity.
  - reflexivity.
  - reflexivity.
  - split; [exact Hsize | exact Hempty].
Defined.

(** X15. From capture to the bulk insert. With the same captures, one
    document-store cycle hands [Insert] exactly one document per captured
    record, the record itself; the store is empty after a successful insert
    and as the captures left it after a failed one. *)
Theorem captured_records_reach_the_bulk_insert `{Msgpack} `{MapRange}
    (config : AnalyticsConfig) (hits : list (AnalyticsRecord * uuid.UUID))
    (io : MongoPurger.Cycle) (m : MongoPurger.receiver) (w : World) :
  Forall uuid.wf hits.*2 → NoDup hits.*2 →
  Forall (λ h, round_trips h.1) hits →
  hits ≠ [] →
  redis w = ∅ →
  has_session m io = true →
  MongoPurger.recorded_meanwhile io = [] →
  let w1 := (RedisAnalyticsHandler.RecordHits (map captured hits) w).2 in
  let w2 := (MongoPurger.PurgeCache config io m w1).2 in
  ∃ batch,
    inserted_batches (since w1 w2) = [batch] ∧
    batch ≡ₚ map (λ h, Some h.1) hits ∧
    (MongoPurger.Insert_result io batch = None → redis w2 = ∅) ∧
    (MongoPurger.Insert_result io batch ≠ None → redis w2 = redis w1).
Proof.
  intros Hwf Hnd Hrt Hne Hempty Hs Hquiet w1 w2. subst w1 w2.
  assert (Forall (λ h, (Marshal h.1).2 = None) hits) as Hok
    by (eapply Forall_impl; [exact Hrt | intros h [Hm _]; exact Hm]).
  destruct (RecordHits_stages hits Hok w) as (w1 & Hrun1 & Hredis1 & _).
  rewrite Hrun1. simpl. rewrite Hempty in Hredis1.
  assert (range (redis w1) ≡ₚ map staged_entry hits) as Hsnap.
  { rewrite (range_visits_all (redis w1)), Hredis1.
    apply after_puts_to_list. now apply staged_entries_NoDup. }
  assert (0 < size (redis w1))%nat as Hpos.
  { rewrite <- range_length, Hsnap, length_map. destruct hits; [congruence | simpl; lia]. }
  destruct (mongo_PurgeCache_with_session config io m w1 Hs)
    as (m' & w2 & t & Hrun2 & _ & Ht & _ & _ & _ & _ & Hins & _ & Hend).
  rewrite Hrun2. simpl. rewrite (since_app _ _ _ Ht), Hins.
  rewrite decide_True by exact Hpos.
  exists (decoded_slots (range (redis w1))). split; [reflexivity|].
  split; [rewrite (decoded_slots_Permutation _ _ Hsnap); now rewrite round_trips_slots|].
  unfold bulk_insert_error in Hend. rewrite decide_True in Hend by exact Hpos.
  rewrite Hquiet in Hend. simpl in Hend.
  split; intros Hres.
  - rewrite Hres in Hend. destruct Hend as [Hredis2 _].
    rewrite Hredis2. apply delete_all_snapshot.
  - destruct (MongoPurger.Insert_result io (decoded_slots (range (redis w1)))) as [e|];
      [|congruence].
    destruct Hend as [Hredis2 _]. exact Hredis2.
Qed.

Lemma captured_records_reach_the_bulk_insert_witness :
  let w1 :=
    (@RedisAnalyticsHandler.RecordHits Sample.codec (map captured Scenario.hits)
       Sample.empty_world).2 in
  let w2 :=
    (@MongoPurger.PurgeCache Sample.codec Sample.in_order Sample.config Scenario.mongo_quiet
       Sample.unconnected w1).2 in
  ∃ batch, inserted_batches (since w1 w2) = [batch] ∧ length batch = 2%nat.
Proof.
  intros w1 w2.
  destruct (@captured_records_reach_the_bulk_insert Sample.codec Sample.in_order Sample.config
              Scenario.hits Scenario.mongo_quiet Sample.unconnected Sample.empty_world)
    as (batch & Hins & Hperm & _).
  - repeat constructor.
  - apply NoDup_cons. split; [|apply NoDup_singleton].
    intros Hin. apply list_elem_of_singleton in Hin. discriminate.
  - repeat constructor.
  - discriminate.
  - reflexivity.
  - reflexivity.
  - reflexivity.
  - exists batch. split; [exact Hins|]. now rewrite Hperm.
Defined.

(** X3. The only error [RecordHit] returns is [AnalyticsError], whose
    message is always "Recording request failed!": the encoder's error that
    caused it is written to the log and not handed to the caller, and the
    store is as it was. *)
Theorem RecordHit_error_hides_the_cause `{Msgpack} (thisRecord : AnalyticsRecord)
    (newV4 : option uuid.UUID * option error) (w w' : World) (e : error) :
  RedisAnalyticsHandler.RecordHit thisRecord newV4 w = (Returned (Some e), w') →
  e = AnalyticsError ∧
  Error e = "Recording request failed!" ∧
  redis w' = redis w ∧
  ∃ cause,
    (Marshal thisRecord).2 = Some cause ∧
    since w w' = [EvLog ErrorLevel (Msg "Error encoding analytics data:");
                  EvLog ErrorLevel (Err cause)].
Proof.
  destruct newV4 as [[u|] uerr]; intros Hrun.
  - destruct (Marshal thisRecord).2 as [cause|] eqn:He.
    + rewrite (RecordHit_not_encoded _ _ _ cause) in Hrun by exact He.
      injection Hrun as <- <-. repeat split.
      exists cause. split; [reflexivity|]. unfold since, extend. simpl.
      apply drop_app_length.
    + rewrite RecordHit_encoded in Hrun by exact He. discriminate.
  - rewrite RecordHit_nil_uuid in Hrun. discriminate.
Qed.

Lemma RecordHit_error_hides_the_cause_witness :
  since Sample.empty_world
    (@RedisAnalyticsHandler.RecordHit Sample.codec (Sample.hit "/users" (-7))
       (Some Sample.u1, None) Sample.empty_world).2 =
    [EvLog ErrorLevel (Msg "Error encoding analytics data:");
     EvLog ErrorLevel (Err (ForeignError "msgpack: unsupported value"))].
Proof.
  destruct (@RecordHit_error_hides_the_cause Sample.codec (Sample.hit "/users" (-7))
              (Some Sample.u1, None) Sample.empty_world
              (@RedisAnalyticsHandler.RecordHit Sample.codec (Sample.hit "/users" (-7))
                 (Some Sample.u1, None) Sample.empty_world).2 AnalyticsError eq_refl)
    as (_ & _ & _ & cause & Hcause & Hlog).
  injection Hcause as <-. exact Hlog.
Defined.

(** X4. The four numbers of a staging key are printed without separators,
    so the key does not determine the hour bucket: for d from 1 to 9, a
    record of day 10 + d of month 1 and a record of day d of month 11 of the
    same year and hour get the same key from the same UUID. *)
Theorem keyName_does_not_determine_the_bucket (r1 r2 : AnalyticsRecord) (u5 : uuid.UUID)
    (d : Z) :
  1 ≤ d ≤ 9 →
  Year r1 = Year r2 → Hour r1 = Hour r2 →
  Month r1 = 1 → Day r1 = 10 + d →
  Month r2 = 11 → Day r2 = d →
  RedisAnalyticsHandler.keyName r1 u5 = RedisAnalyticsHandler.keyName r2 u5.
Proof.
  intros Hd Hy Hh Hm1 Hd1 Hm2 Hd2. unfold RedisAnalyticsHandler.keyName.
  rewrite Hy, Hh, Hm1, Hd1, Hm2, Hd2. clear Hy Hh Hm1 Hd1 Hm2 Hd2. f_equal.
  generalize (Fmt.Itoa (Hour r2) +:+ "-" +:+ uuid.String u5). intros rest.
  assert (d = 1 ∨ d = 2 ∨ d = 3 ∨ d = 4 ∨ d = 5 ∨ d = 6 ∨ d = 7 ∨ d = 8 ∨ d = 9)
    as Hcases by lia.
  decompose [or] Hcases; subst d; vm_compute; reflexivity.
Qed.

Lemma keyName_does_not_determine_the_bucket_witness :
  RedisAnalyticsHandler.keyName
    {| Method := "GET"; Path := "/"; ContentLength := 0; UserAgent := ""; Day := 15;
       Month := 1; Year := 2014; Hour := 7; ResponseCode := 200; APIKey := "";
       TimeStamp := 0; APIVersion := ""; APIName := ""; ApiId := ""; OrgId := "" |} Sample.u1 =
  RedisAnalyticsHandler.keyName
    {| Method := "GET"; Path := "/"; ContentLength := 0; UserAgent := ""; Day := 5;
       Month := 11; Year := 2014; Hour := 7; ResponseCode := 200; APIKey := "";
       TimeStamp := 0; APIVersion := ""; APIName := ""; ApiId := ""; OrgId := "" |} Sample.u1.
Proof.
  apply (keyName_does_not_determine_the_bucket _ _ Sample.u1 5); simpl; (lia || reflexivity).
Defined.


